(** * widget.c: widget lookup, layout, rendering and invalidation

    A shallow embedding of awesome's [widget.c].  Objects the C code reaches
    through pointers (widgets, wiboxes) live in memories indexed by their
    address; the Lua values the code walks are a small inductive type; the
    calls the code makes into the drawing back end, the X server, the layout
    function and the widgets' own capabilities are recorded in a call log. *)

From Stdlib Require Import ZArith Lia.
From stdpp Require Import base tactics option numbers list strings functions.

Local Open Scope Z_scope.

(** ** Data model *)

(** [area_t]: a rectangle.  Its four fields are integers. *)
Record area_t := mk_area { x : Z; y : Z; width : Z; height : Z }.

(** [orientation_t]: how a wibox is mounted. *)
Inductive orientation_t := North | South | East.

#[global] Instance orientation_eq_dec : EqDecision orientation_t.
Proof. solve_decision. Defined.

(** The five widget constructors ([widget_constructor_t] function pointers)
    [luaA_widget_new] can select. *)
Inductive widget_constructor_t :=
  widget_textbox | widget_progressbar | widget_graph | widget_systray | widget_imagebox.

#[global] Instance widget_constructor_eq_dec : EqDecision widget_constructor_t.
Proof. solve_decision. Defined.

(** Addresses of widgets and wiboxes, and identities of Lua functions. *)
Abbreviation widget_ptr := positive (only parsing).
Abbreviation wibox_ptr := positive (only parsing).
Abbreviation lua_function := positive (only parsing).

(** [awesome_token_t], restricted to the tokens this file dispatches on;
    [A_TK_UNKNOWN] stands for every other token of the keyword list. *)
Inductive awesome_token_t :=
| A_TK_VISIBLE | A_TK_MOUSE_ENTER | A_TK_MOUSE_LEAVE
| A_TK_TEXTBOX | A_TK_PROGRESSBAR | A_TK_GRAPH | A_TK_SYSTRAY | A_TK_IMAGEBOX
| A_TK_UNKNOWN.

(** [widget_t].  [extents] is the widget's size capability: it is called with
    the screen index on top of the Lua stack.  [newindex] tells whether the
    type-specific setter is present.  [env] counts the references the widget
    holds on Lua items (its event hooks). *)
Record widget_t := mk_widget {
  type : option widget_constructor_t;
  isvisible : bool;
  extents : Z → area_t;
  newindex : bool;
  mouse_enter : option lua_function;
  mouse_leave : option lua_function;
  env : lua_function → nat
}.

(** [widget_node_t]: a widget reference with its computed geometry. *)
Record widget_node_t := mk_node { widget : widget_ptr; geometry : area_t }.

Abbreviation widget_node_array_t := (list widget_node_t) (only parsing).

(** Widget memory: what each widget address holds. *)
Abbreviation widget_mem := (widget_ptr → widget_t) (only parsing).

(** ** Fixed-width coordinates *)

(** Storing an [int] into an [int16_t] object keeps the low 16 bits, read as a
    signed value. *)
Definition to_int16 (z : Z) : Z := (z + 32768) mod 65536 - 32768.

Definition int16_range (z : Z) : Prop := -32768 ≤ z ≤ 32767.

(** ** widget_getbycoords *)

(** The coordinate switch at the head of [widget_getbycoords]; the pair is the
    content of [*x] and [*y] afterwards.  The subtractions are made in [int],
    the results are stored back into the [int16_t] objects. *)
Definition getbycoords_transform (orientation : orientation_t)
    (width height x y : Z) : Z * Z :=
  match orientation with
  | South =>
      let tmp := y in
      let y := to_int16 (width - x) in
      let x := to_int16 tmp in
      (x, y)
  | North =>
      let tmp := y in
      let y := to_int16 x in
      let x := to_int16 (height - tmp) in
      (x, y)
  | East => (x, y)
  end.

(** The test of the [foreach] loop on one node; [px] and [py] are the contents
    of [*x] and [*y]. *)
Definition getbycoords_hit (mem : widget_mem) (px py : Z) (w : widget_node_t) : bool :=
  isvisible (mem (widget w))
  && (px >=? x (geometry w)) && (px <? x (geometry w) + width (geometry w))
  && (py >=? y (geometry w)) && (py <? y (geometry w) + height (geometry w)).

(** The [foreach] loop: the first node that passes the test, [None] for NULL. *)
Fixpoint getbycoords_foreach (mem : widget_mem) (px py : Z)
    (widgets : widget_node_array_t) : option widget_ptr :=
  match widgets with
  | [] => None
  | w :: widgets' =>
      if getbycoords_hit mem px py w then Some (widget w)
      else getbycoords_foreach mem px py widgets'
  end.

(** [widget_getbycoords]: the widget returned, and the new content of [*x]
    and [*y]. *)
Definition widget_getbycoords (mem : widget_mem) (orientation : orientation_t)
    (widgets : widget_node_array_t) (width height x y : Z)
    : option widget_ptr * (Z * Z) :=
  let xy := getbycoords_transform orientation width height x y in
  (getbycoords_foreach mem xy.1 xy.2 widgets, xy).

(** ** Lua values *)

(** The Lua values this file inspects.  A table is the sequence of its
    entries in the order [luaA_next] visits them; the table registered as a
    wibox's widget table is checked for loops when it is assigned, so a finite
    tree represents it. *)
Inductive lua_key := KNumber (n : Z) | KString (s : string).

#[global] Instance lua_key_eq_dec : EqDecision lua_key.
Proof. solve_decision. Defined.

#[warnings="-register-all"]
Inductive lua_value :=
| LNil
| LBoolean (b : bool)
| LNumber (n : Z)
| LString (s : string)
| LFunction (f : lua_function)
| LWidget (w : widget_ptr)
| LTable (entries : list (lua_key * lua_value)).

(** The table [luaA_pusharea] builds, and what [luaA_getopt_number] finds
    when reading one back: each of the four fields is a number or absent. *)
Record lua_area := mk_lua_area {
  lua_x : option Z; lua_y : option Z; lua_width : option Z; lua_height : option Z
}.

(** The value on top of the Lua stack when [widget_geometries] returns true:
    the array part of the geometry table, entry [i + 1] of the table at
    position [i]. *)
Abbreviation lua_geometries := (list lua_area) (only parsing).

(** Modelled from the spec: [luaA_pusharea] is not in widget.c; it pushes a
    table holding the four fields of an area. *)
Definition luaA_pusharea (geometry : area_t) : lua_area :=
  {| lua_x := Some (x geometry); lua_y := Some (y geometry);
     lua_width := Some (width geometry); lua_height := Some (height geometry) |}.

(** Modelled from the spec: [luaA_getopt_number] is not in widget.c; it reads a
    numeric field and yields the default when the field is absent. *)
Definition luaA_getopt_number (field : option Z) (def : Z) : Z := default def field.

(** Modelled from the spec: [luaA_object_push_item] is not in widget.c; it
    pushes the referenced item, or nil for a NULL reference. *)
Definition luaA_object_push_item (item : option lua_value) : lua_value :=
  default LNil item.

(** [lua_getfield(L, -1, name)]: the field of a table, nil when it has none.
    Indexing a widget goes through [luaA_widget_index], which has no such
    field either.  For a value Lua cannot index, a function for one, Lua
    raises an error and the caller does not return; that error is not
    represented here, so what is stated about the outcome of
    [widget_geometries] and [widget_render] on the default path is stated
    for wiboxes whose widget table is a table or NULL ([table_or_none]). *)
Fixpoint lua_rawget (entries : list (lua_key * lua_value)) (name : string) : lua_value :=
  match entries with
  | [] => LNil
  | (k, v) :: entries' =>
      if decide (k = KString name) then v else lua_rawget entries' name
  end.

Definition lua_getfield (v : lua_value) (name : string) : lua_value :=
  match v with
  | LTable entries => lua_rawget entries name
  | _ => LNil
  end.

(** [lua_isfunction]: the function a value is, if it is one. *)
Definition lua_isfunction (v : lua_value) : option lua_function :=
  match v with
  | LFunction f => Some f
  | _ => None
  end.

(** ** Surfaces *)

(** [xcolor_t]: 16-bit colour channels. *)
Record xcolor_t := mk_xcolor { red : Z; green : Z; blue : Z; alpha : Z }.

(** [draw_context_t], the off-screen buffer of a wibox. *)
Record draw_context_t := mk_ctx {
  ctx_width : Z;
  ctx_height : Z;
  ctx_pixmap : Z;
  ctx_bg : xcolor_t;
  ctx_phys_screen : Z
}.

(** [wibox_t].  [screen] is the index of the wibox's screen in
    [globalconf.screens], [bg_image] and [widgets_table] are NULL when [None]. *)
Record wibox_t := mk_wibox {
  wibox_geometry : area_t;
  orientation : orientation_t;
  ctx : draw_context_t;
  pixmap : Z;
  gc : Z;
  widgets : widget_node_array_t;
  widgets_table : option lua_value;
  need_update : bool;
  bg_image : option Z;
  screen : Z
}.

Definition set_widgets (widgets' : widget_node_array_t) (wibox : wibox_t) : wibox_t :=
  {| wibox_geometry := wibox_geometry wibox; orientation := orientation wibox;
     ctx := ctx wibox; pixmap := pixmap wibox; gc := gc wibox;
     widgets := widgets'; widgets_table := widgets_table wibox;
     need_update := need_update wibox; bg_image := bg_image wibox;
     screen := screen wibox |}.

Definition set_need_update (b : bool) (wibox : wibox_t) : wibox_t :=
  {| wibox_geometry := wibox_geometry wibox; orientation := orientation wibox;
     ctx := ctx wibox; pixmap := pixmap wibox; gc := gc wibox;
     widgets := widgets wibox; widgets_table := widgets_table wibox;
     need_update := b; bg_image := bg_image wibox;
     screen := screen wibox |}.

(** ** The call log *)

(** The two angles [widget_render] rotates by. *)
Inductive angle_t := M_PI_2 | minus_M_PI_2.

(** Calls that leave widget.c, with their arguments.  The constant opacity
    [1.0] of [draw_image] and [draw_rectangle] is not recorded;
    [call_draw_rectangle] carries the colour [xcolor_to_color] converts. *)
Inductive call :=
| call_layout (layout : lua_function) (geometry : area_t) (tbl : lua_value) (screen : Z)
| call_extents (w : widget_ptr) (screen : Z)
| call_get_property (window : Z)
| call_draw_rotate (ctx : draw_context_t) (src dst : Z)
    (src_w src_h dst_w dst_h : Z) (angle : angle_t) (tx ty : Z)
| call_copy_area (src dst gc : Z) (src_x src_y dst_x dst_y w h : Z)
| call_draw_image (ctx : draw_context_t) (x y : Z) (image : Z)
| call_draw_rectangle (ctx : draw_context_t) (geometry : area_t) (filled : bool) (col : xcolor_t)
| call_draw (w : widget_ptr) (ctx : draw_context_t) (geometry : area_t) (wibox : wibox_t).

(** The calls that paint. *)
Definition is_paint (c : call) : bool :=
  match c with
  | call_draw_rotate _ _ _ _ _ _ _ _ _ _ | call_copy_area _ _ _ _ _ _ _ _ _
  | call_draw_image _ _ _ _ | call_draw_rectangle _ _ _ _ | call_draw _ _ _ _ => true
  | call_layout _ _ _ _ | call_extents _ _ | call_get_property _ => false
  end.

(** The calls to a widget's draw capability. *)
Definition is_draw (c : call) : bool :=
  match c with
  | call_draw _ _ _ _ => true
  | _ => false
  end.

(** ** luaA_table2widgets *)

Definition zero_area : area_t := {| x := 0; y := 0; width := 0; height := 0 |}.

(** [luaA_table2widgets]: walk the value on top of the stack, appending a
    node, cleared by [p_clear], for each widget met. *)
Fixpoint luaA_table2widgets (v : lua_value) (widgets : widget_node_array_t)
    : widget_node_array_t :=
  match v with
  | LTable entries =>
      (fix luaA_next (entries : list (lua_key * lua_value)) (widgets : widget_node_array_t) :=
         match entries with
         | [] => widgets
         | (_, v') :: entries' => luaA_next entries' (luaA_table2widgets v' widgets)
         end) entries widgets
  | LWidget widget =>
      widgets ++ [ {| widget := widget; geometry := zero_area |} ]
  | _ => widgets
  end.

(** ** widget_geometries *)

(** The Lua state, as far as widget.c reads it: the widget objects, and what
    calling a layout function yields.

    Modelled from the spec: [luaA_dofunction] is not in widget.c; it calls the
    function with the arguments pushed (wibox geometry, widget table, screen)
    and either leaves its one result on the stack or reports failure. *)
Record lua_State := mk_lua_State {
  widget_objects : widget_mem;
  luaA_dofunction : lua_function → area_t → lua_value → Z → option lua_geometries
}.

(** What [widget_geometries] leaves behind: the geometry table on the stack
    when it returns true ([None] when it returns false), the wibox, and the
    calls made. *)
Record resolved := mk_resolved {
  res_table : option lua_geometries;
  res_wibox : wibox_t;
  res_calls : list call
}.

(** The first argument pushed for the layout function. *)
Definition layout_geometry (wibox : wibox_t) : area_t :=
  let geometry := wibox_geometry wibox in
  let geometry := {| x := 0; y := 0; width := width geometry; height := height geometry |} in
  if decide (orientation wibox ≠ East) then
    let i := height geometry in
    {| x := x geometry; y := y geometry; width := i; height := width geometry |}
  else geometry.

(** One turn of the loop of the default path: the area stored at [i + 1]. *)
Definition default_geometry (L : lua_State) (wibox : wibox_t) (node : widget_node_t)
    : lua_area :=
  let widget := widget_objects L (widget node) in
  let geometry := extents widget (screen wibox) in
  luaA_pusharea
    {| x := 0; y := 0;
       width := Z.min (width (wibox_geometry wibox)) (width geometry);
       height := Z.min (height (wibox_geometry wibox)) (height geometry) |}.

(** The value the opening test leaves on the stack: the layout field of the
    widget table, or nil when the wibox has no widget table. *)
Definition widget_layout (wibox : wibox_t) : lua_value :=
  match widgets_table wibox with
  | Some tbl => lua_getfield tbl "layout"
  | None => LNil
  end.

Definition widget_geometries (L : lua_State) (wibox : wibox_t) : resolved :=
  match lua_isfunction (widget_layout wibox) with
  | Some f =>
      let geometry := layout_geometry wibox in
      let tbl := luaA_object_push_item (widgets_table wibox) in
      {| res_table := luaA_dofunction L f geometry tbl (screen wibox);
         res_wibox := wibox;
         res_calls := [call_layout f geometry tbl (screen wibox)] |}
  | None =>
      let widgets := luaA_table2widgets (luaA_object_push_item (widgets_table wibox)) [] in
      {| res_table := Some (default_geometry L wibox <$> widgets);
         res_wibox := set_widgets widgets wibox;
         res_calls := (λ node, call_extents (widget node) (screen wibox)) <$> widgets |}
  end.

(** ** widget_render *)

(** The X server, as far as [widget_render] asks it: the screens, and the
    reply to the request for a root window's [_XROOTPMAP_ID] property.  In a
    reply, [value] is the pixmap the data points to, [None] for no data. *)
Record xcb_screen_t := mk_screen { root : Z; width_in_pixels : Z; height_in_pixels : Z }.

Record xcb_get_property_reply_t := mk_reply { value_len : Z; value : option Z }.

Record xcb_connection_t := mk_connection {
  xutil_screen_get : Z → xcb_screen_t;
  xcb_get_property_reply : Z → option xcb_get_property_reply_t
}.

(** The block guarded by [ctx->bg.alpha != 0xffff]. *)
Definition render_root_background (connection : xcb_connection_t) (wibox : wibox_t)
    : list call :=
  let ctx := ctx wibox in
  let x := x (wibox_geometry wibox) in
  let y := y (wibox_geometry wibox) in
  let s := xutil_screen_get connection (ctx_phys_screen ctx) in
  call_get_property (root s) ::
  match xcb_get_property_reply connection (root s) with
  | Some prop_r =>
      match value prop_r with
      | Some rootpix =>
          if bool_decide (value_len prop_r ≠ 0) && bool_decide (rootpix ≠ 0) then
            match orientation wibox with
            | North =>
                [call_draw_rotate ctx rootpix (ctx_pixmap ctx)
                   (width_in_pixels s) (height_in_pixels s)
                   (ctx_width ctx) (ctx_height ctx)
                   M_PI_2 (y + ctx_width ctx) (- x)]
            | South =>
                [call_draw_rotate ctx rootpix (ctx_pixmap ctx)
                   (width_in_pixels s) (height_in_pixels s)
                   (ctx_width ctx) (ctx_height ctx)
                   minus_M_PI_2 (- y) (x + ctx_height ctx)]
            | East =>
                [call_copy_area rootpix (pixmap wibox) (gc wibox)
                   x y 0 0 (ctx_width ctx) (ctx_height ctx)]
            end
          else []
      | None => []
      end
  | None => []
  end.

(** The loop reading the computed geometries back into the nodes.  Writing
    [widgets->tab[i]] with [i] beyond the array is outside what C defines:
    [None].  A number is stored as it is read, which is what the assignment
    to a field of [area_t] does for a number the field can hold; what is
    stated about the geometries read back is stated for such numbers
    ([fits_area]). *)
Fixpoint render_get_geometries (wibox : wibox_t) (tbl : lua_geometries) (i : nat)
    (widgets : widget_node_array_t) : option widget_node_array_t :=
  match tbl with
  | [] => Some widgets
  | t :: tbl' =>
      match widgets !! i with
      | Some node =>
          let geometry :=
            {| x := luaA_getopt_number (lua_x t) (x (wibox_geometry wibox));
               y := luaA_getopt_number (lua_y t) (y (wibox_geometry wibox));
               width := luaA_getopt_number (lua_width t) 1;
               height := luaA_getopt_number (lua_height t) 1 |} in
          render_get_geometries wibox tbl' (S i)
            (<[i := {| widget := widget node; geometry := geometry |}]> widgets)
      | None => None
      end
  end.

(** The loop drawing the visible widgets. *)
Definition render_draw (L : lua_State) (wibox : wibox_t) : list call :=
  (λ node, call_draw (widget node) (ctx wibox) (geometry node) wibox)
    <$> filter (λ node, isvisible (widget_objects L (widget node)) = true) (widgets wibox).

(** The closing switch: rotate the buffer onto the wibox's pixmap. *)
Definition render_rotate (wibox : wibox_t) : list call :=
  let ctx := ctx wibox in
  match orientation wibox with
  | South =>
      [call_draw_rotate ctx (ctx_pixmap ctx) (pixmap wibox)
         (ctx_width ctx) (ctx_height ctx) (ctx_height ctx) (ctx_width ctx)
         M_PI_2 (ctx_height ctx) 0]
  | North =>
      [call_draw_rotate ctx (ctx_pixmap ctx) (pixmap wibox)
         (ctx_width ctx) (ctx_height ctx) (ctx_height ctx) (ctx_width ctx)
         minus_M_PI_2 0 (ctx_width ctx)]
  | East => []
  end.

(** How [widget_render] ends. *)
Inductive render_status := render_done | render_aborted | render_out_of_bounds.

Record rendered := mk_rendered {
  rnd_status : render_status;
  rnd_wibox : wibox_t;
  rnd_calls : list call
}.

Definition widget_render (L : lua_State) (connection : xcb_connection_t)
    (wibox : wibox_t) : rendered :=
  let rectangle :=
    {| x := 0; y := 0; width := ctx_width (ctx wibox); height := ctx_height (ctx wibox) |} in
  let r := widget_geometries L wibox in
  match res_table r with
  | None =>
      {| rnd_status := render_aborted; rnd_wibox := res_wibox r; rnd_calls := res_calls r |}
  | Some tbl =>
      let wibox := res_wibox r in
      let opaque := bool_decide (alpha (ctx_bg (ctx wibox)) = 65535) in
      let calls :=
        res_calls r ++ (if opaque then [] else render_root_background connection wibox) in
      let widgets := luaA_table2widgets (luaA_object_push_item (widgets_table wibox)) [] in
      match render_get_geometries wibox tbl 0 widgets with
      | None =>
          {| rnd_status := render_out_of_bounds;
             rnd_wibox := set_widgets widgets wibox; rnd_calls := calls |}
      | Some widgets =>
          let wibox := set_widgets widgets wibox in
          let calls :=
            calls
            ++ match bg_image wibox with
               | Some image =>
                   if opaque then [] else [call_draw_image (ctx wibox) 0 0 image]
               | None => []
               end
            ++ [call_draw_rectangle (ctx wibox) rectangle true (ctx_bg (ctx wibox))]
            ++ render_draw L wibox
            ++ render_rotate wibox in
          {| rnd_status := render_done; rnd_wibox := wibox; rnd_calls := calls |}
      end
  end.

(** ** Global state and invalidation *)

(** [client_t], as far as widget.c reads it: the titlebar, NULL when [None]. *)
Record client_t := mk_client { titlebar : option wibox_ptr }.

(** [globalconf]: the Lua state, the wibox objects by address, the arrays
    [globalconf.wiboxes] and [globalconf.clients] of pointers, the warnings
    printed so far, and the address the next widget object is allocated at. *)
Record globalconf_t := mk_globalconf {
  L : lua_State;
  wibox_objects : wibox_ptr → wibox_t;
  wiboxes : list wibox_ptr;
  clients : list client_t;
  warnings : list (string * option string);
  next_widget : widget_ptr
}.

Definition set_wibox_objects (objs : wibox_ptr → wibox_t) (G : globalconf_t) : globalconf_t :=
  {| L := L G; wibox_objects := objs; wiboxes := wiboxes G; clients := clients G;
     warnings := warnings G; next_widget := next_widget G |}.

(** The inner loop of both halves of [widget_invalidate_bywidget]: is there a
    node of the wibox whose widget is [w]? *)
Definition invalidate_has_widget (w : widget_ptr) (wibox : wibox_t) : bool :=
  existsb (λ wnode, bool_decide (widget wnode = w)) (widgets wibox).

(** The body run for one wibox pointer: skipped when the wibox already needs
    an update, otherwise the flag is set on the first matching node. *)
Definition invalidate_one (w : widget_ptr) (objs : wibox_ptr → wibox_t)
    (wibox : wibox_ptr) : wibox_ptr → wibox_t :=
  if negb (need_update (objs wibox)) && invalidate_has_widget w (objs wibox)
  then <[wibox := set_need_update true (objs wibox)]> objs
  else objs.

Definition invalidate_titlebar (w : widget_ptr) (objs : wibox_ptr → wibox_t)
    (c : client_t) : wibox_ptr → wibox_t :=
  match titlebar c with
  | Some tb => invalidate_one w objs tb
  | None => objs
  end.

Definition widget_invalidate_bywidget (w : widget_ptr) (G : globalconf_t) : globalconf_t :=
  let objs := foldl (invalidate_one w) (wibox_objects G) (wiboxes G) in
  let objs := foldl (invalidate_titlebar w) objs (clients G) in
  set_wibox_objects objs G.

(** ** The Lua interface of widgets *)

(** Modelled from the spec: [a_tokenize] is generated from a keyword list that
    is not in widget.c; it maps a keyword to its token, and anything else,
    a NULL string included, to a token widget.c does not name. *)
Definition a_tokenize (buf : option string) : awesome_token_t :=
  match buf with
  | None => A_TK_UNKNOWN
  | Some s =>
      if decide (s = "visible") then A_TK_VISIBLE
      else if decide (s = "mouse_enter") then A_TK_MOUSE_ENTER
      else if decide (s = "mouse_leave") then A_TK_MOUSE_LEAVE
      else if decide (s = "textbox") then A_TK_TEXTBOX
      else if decide (s = "progressbar") then A_TK_PROGRESSBAR
      else if decide (s = "graph") then A_TK_GRAPH
      else if decide (s = "systray") then A_TK_SYSTRAY
      else if decide (s = "imagebox") then A_TK_IMAGEBOX
      else A_TK_UNKNOWN
  end.

Definition set_widget_objects (objs : widget_mem) (G : globalconf_t) : globalconf_t :=
  {| L := {| widget_objects := objs; luaA_dofunction := luaA_dofunction (L G) |};
     wibox_objects := wibox_objects G; wiboxes := wiboxes G; clients := clients G;
     warnings := warnings G; next_widget := next_widget G |}.

Definition set_type (wc : widget_constructor_t) (w : widget_t) : widget_t :=
  {| type := Some wc; isvisible := isvisible w; extents := extents w;
     newindex := newindex w; mouse_enter := mouse_enter w;
     mouse_leave := mouse_leave w; env := env w |}.

Definition set_isvisible (b : bool) (w : widget_t) : widget_t :=
  {| type := type w; isvisible := b; extents := extents w;
     newindex := newindex w; mouse_enter := mouse_enter w;
     mouse_leave := mouse_leave w; env := env w |}.

Definition set_mouse_enter (f : option lua_function) (w : widget_t) : widget_t :=
  {| type := type w; isvisible := isvisible w; extents := extents w;
     newindex := newindex w; mouse_enter := f;
     mouse_leave := mouse_leave w; env := env w |}.

Definition set_mouse_leave (f : option lua_function) (w : widget_t) : widget_t :=
  {| type := type w; isvisible := isvisible w; extents := extents w;
     newindex := newindex w; mouse_enter := mouse_enter w;
     mouse_leave := f; env := env w |}.

Definition set_env (e : lua_function → nat) (w : widget_t) : widget_t :=
  {| type := type w; isvisible := isvisible w; extents := extents w;
     newindex := newindex w; mouse_enter := mouse_enter w;
     mouse_leave := mouse_leave w; env := e |}.

(** Modelled from the spec: [luaA_warn] is not in widget.c; it prints a
    warning and returns.  The log keeps the format and its argument. *)
Definition luaA_warn (fmt : string) (arg : option string) (G : globalconf_t) : globalconf_t :=
  {| L := L G; wibox_objects := wibox_objects G; wiboxes := wiboxes G;
     clients := clients G; warnings := warnings G ++ [(fmt, arg)];
     next_widget := next_widget G |}.

(** [luaA_widget_new].  [type] is what [luaA_getopt_lstring] reads from the
    argument table, NULL when the table has no type; [construct wc] is the
    object [widget_new] allocates once the constructor [wc] has initialised
    it.  The result is the widget left on the stack, [None] when the
    function returns 0. *)
Definition luaA_widget_new (construct : widget_constructor_t → widget_t)
    (type : option string) (G : globalconf_t) : option widget_ptr * globalconf_t :=
  let wc :=
    match a_tokenize type with
    | A_TK_TEXTBOX => Some widget_textbox
    | A_TK_PROGRESSBAR => Some widget_progressbar
    | A_TK_GRAPH => Some widget_graph
    | A_TK_SYSTRAY => Some widget_systray
    | A_TK_IMAGEBOX => Some widget_imagebox
    | _ => None
    end in
  match wc with
  | Some wc =>
      let w := next_widget G in
      let obj := construct wc in
      let obj := set_type wc obj in
      let obj := set_isvisible true obj in
      let G := set_widget_objects (<[w := obj]> (widget_objects (L G))) G in
      (Some w,
       {| L := L G; wibox_objects := wibox_objects G; wiboxes := wiboxes G;
          clients := clients G; warnings := warnings G;
          next_widget := Pos.succ w |})
  | None => (None, luaA_warn "unkown widget type: %s" type G)
  end.

(** Modelled from the spec: [luaA_checkboolean] and [luaA_checkfunction] are
    not in widget.c; each yields the argument when it has the type asked for
    and raises a Lua error, [None], otherwise. *)
Definition luaA_checkboolean (v : lua_value) : option bool :=
  match v with
  | LBoolean b => Some b
  | _ => None
  end.

Definition luaA_checkfunction (v : lua_value) : option lua_function :=
  lua_isfunction v.

(** Modelled from the spec: [luaA_object_unref_item] and
    [luaA_object_ref_item] are not in widget.c; the first releases one
    reference the object holds on an item and does nothing for NULL, the
    second acquires one and returns the item's address. *)
Definition luaA_object_unref_item (w : widget_t) (item : option lua_function) : widget_t :=
  match item with
  | Some f => set_env (<[f := Nat.pred (env w f)]> (env w)) w
  | None => w
  end.

Definition luaA_object_ref_item (w : widget_t) (f : lua_function)
    : widget_t * option lua_function :=
  (set_env (<[f := S (env w f)]> (env w)) w, Some f).

(** [luaA_widget_newindex] on the widget at [widget], for the key [buf] and
    the value at stack index 3.  [type_newindex] is the [newindex] capability
    of the widget's type.  [None] is a Lua error; otherwise the result is the
    number of values returned and the new state. *)
Definition luaA_widget_newindex
    (type_newindex : widget_ptr → awesome_token_t → lua_value →
                     globalconf_t → option (Z * globalconf_t))
    (widget : widget_ptr) (buf : string) (value : lua_value) (G : globalconf_t)
    : option (Z * globalconf_t) :=
  let obj := widget_objects (L G) widget in
  let token := a_tokenize (Some buf) in
  match token with
  | A_TK_VISIBLE =>
      b ← luaA_checkboolean value;
      let obj := set_isvisible b obj in
      let G := set_widget_objects (<[widget := obj]> (widget_objects (L G))) G in
      let G := widget_invalidate_bywidget widget G in
      Some (0, G)
  | A_TK_MOUSE_ENTER =>
      f ← luaA_checkfunction value;
      let obj := luaA_object_unref_item obj (mouse_enter obj) in
      let '(obj, item) := luaA_object_ref_item obj f in
      let obj := set_mouse_enter item obj in
      Some (0, set_widget_objects (<[widget := obj]> (widget_objects (L G))) G)
  | A_TK_MOUSE_LEAVE =>
      f ← luaA_checkfunction value;
      let obj := luaA_object_unref_item obj (mouse_leave obj) in
      let '(obj, item) := luaA_object_ref_item obj f in
      let obj := set_mouse_leave item obj in
      Some (0, set_widget_objects (<[widget := obj]> (widget_objects (L G))) G)
  | _ =>
      if newindex obj then type_newindex widget token value G else Some (0, G)
  end.

(** ** The claim about [widget_getbycoords], as the specification words it *)

(** The orientation transform with the subtractions taken over the integers. *)
Definition spec_transform (orientation : orientation_t) (width height x y : Z) : Z * Z :=
  match orientation with
  | South => (y, width - x)
  | North => (height - y, x)
  | East => (x, y)
  end.

(** The point [p] lies in the rectangle. *)
Definition inside (geometry : area_t) (p : Z * Z) : Prop :=
  x geometry ≤ p.1 < x geometry + width geometry
  ∧ y geometry ≤ p.2 < y geometry + height geometry.

(** Node [w] holds a visible widget and contains [p]. *)
Definition matches (mem : widget_mem) (p : Z * Z) (w : widget_node_t) : Prop :=
  isvisible (mem (widget w)) = true ∧ inside (geometry w) p.

(** [r] is the widget of the first node of [widgets] matching [p], or NULL
    when no node matches. *)
Definition first_match (mem : widget_mem) (p : Z * Z)
    (widgets : widget_node_array_t) (r : option widget_ptr) : Prop :=
  match r with
  | Some W =>
      ∃ before w after, widgets = before ++ w :: after ∧ widget w = W
        ∧ matches mem p w ∧ ∀ w', w' ∈ before → ¬ matches mem p w'
  | None => ∀ w, w ∈ widgets → ¬ matches mem p w
  end.

(** ** Notions the properties are stated with *)

(** The node collection of a wibox contains the widget [w]. *)
Definition contains_widget (w : widget_ptr) (wibox : wibox_t) : Prop :=
  ∃ wnode, wnode ∈ widgets wibox ∧ widget wnode = w.

(** The wibox at [p] is managed: it is one of [globalconf.wiboxes] or the
    titlebar of a client. *)
Definition managed (G : globalconf_t) (p : wibox_ptr) : Prop :=
  p ∈ wiboxes G ∨ ∃ c, c ∈ clients G ∧ titlebar c = Some p.

(** What a visit of [widget_invalidate_bywidget] does to one wibox. *)
Definition invalidate_mark (w : widget_ptr) (wibox : wibox_t) : wibox_t :=
  if negb (need_update wibox) && invalidate_has_widget w wibox
  then set_need_update true wibox
  else wibox.

(** The type names of the widget factory, with their constructors. *)
Definition widget_type_names : list (string * widget_constructor_t) :=
  [("textbox", widget_textbox); ("progressbar", widget_progressbar);
   ("graph", widget_graph); ("systray", widget_systray);
   ("imagebox", widget_imagebox)].

(** ** widget_invalidate_bytype *)

(** The inner loop of [widget_invalidate_bytype]: is there a node of the
    wibox whose widget has the type [ty]?  Types are compared as pointers. *)
Definition invalidate_has_type (mem : widget_mem) (ty : option widget_constructor_t)
    (wibox : wibox_t) : bool :=
  existsb (λ wnode, bool_decide (type (mem (widget wnode)) = ty)) (widgets wibox).

(** The body run for one wibox pointer: the flag is set on the first node of
    the type, whatever the flag was. *)
Definition invalidate_type_one (mem : widget_mem) (ty : option widget_constructor_t)
    (objs : wibox_ptr → wibox_t) (wibox : wibox_ptr) : wibox_ptr → wibox_t :=
  if invalidate_has_type mem ty (objs wibox)
  then <[wibox := set_need_update true (objs wibox)]> objs
  else objs.

Definition widget_invalidate_bytype (ty : option widget_constructor_t) (G : globalconf_t)
    : globalconf_t :=
  set_wibox_objects
    (foldl (invalidate_type_one (widget_objects (L G)) ty) (wibox_objects G) (wiboxes G)) G.

(** ** luaA_widget_index *)

(** [luaA_widget_index] on the widget at [widget] for the key [buf]; the
    result is the list of values it pushes.  [metatable] is the metatable of
    widgets, which [luaA_usemetatable] searches first; [type_index widget] is
    the [index] capability of the widget, NULL when [None]. *)
Definition luaA_widget_index (metatable : list (lua_key * lua_value))
    (type_index : widget_ptr → option (awesome_token_t → list lua_value))
    (widget : widget_ptr) (buf : string) (G : globalconf_t) : list lua_value :=
  let obj := widget_objects (L G) widget in
  match lua_rawget metatable buf with
  | LNil =>
      match a_tokenize (Some buf) with
      | A_TK_VISIBLE => [LBoolean (isvisible obj)]
      | A_TK_MOUSE_ENTER => [luaA_object_push_item (LFunction <$> mouse_enter obj)]
      | A_TK_MOUSE_LEAVE => [luaA_object_push_item (LFunction <$> mouse_leave obj)]
      | token =>
          match type_index widget with
          | Some index => index token
          | None => []
          end
      end
  | v => [v]
  end.

(** ** Further notions the properties are stated with *)

(** [w] is a widget met when walking the value [v]: the value itself, or a
    widget met in an entry of the table, at any depth. *)
Inductive widget_leaf (w : widget_ptr) : lua_value → Prop :=
| widget_leaf_here : widget_leaf w (LWidget w)
| widget_leaf_entry k v entries :
    (k, v) ∈ entries → widget_leaf w v → widget_leaf w (LTable entries).

(** The geometry [widget_render] reads for a node from its entry of the
    geometry table. *)
Definition read_geometry (wibox : wibox_t) (t : lua_area) : area_t :=
  {| x := luaA_getopt_number (lua_x t) (x (wibox_geometry wibox));
     y := luaA_getopt_number (lua_y t) (y (wibox_geometry wibox));
     width := luaA_getopt_number (lua_width t) 1;
     height := luaA_getopt_number (lua_height t) 1 |}.

(** The nodes [widget_render] starts from: the widget table, flattened. *)
Definition flattened (wibox : wibox_t) : widget_node_array_t :=
  luaA_table2widgets (luaA_object_push_item (widgets_table wibox)) [].

Definition set_orientation (o : orientation_t) (wibox : wibox_t) : wibox_t :=
  {| wibox_geometry := wibox_geometry wibox; orientation := o;
     ctx := ctx wibox; pixmap := pixmap wibox; gc := gc wibox;
     widgets := widgets wibox; widgets_table := widgets_table wibox;
     need_update := need_update wibox; bg_image := bg_image wibox;
     screen := screen wibox |}.

(** Everything of a wibox but its node collection. *)
Definition same_but_widgets (a b : wibox_t) : Prop :=
  wibox_geometry a = wibox_geometry b ∧ orientation a = orientation b
  ∧ ctx a = ctx b ∧ pixmap a = pixmap b ∧ gc a = gc b
  ∧ widgets_table a = widgets_table b ∧ need_update a = need_update b
  ∧ bg_image a = bg_image b ∧ screen a = screen b.

(** The widget table of the wibox is a Lua table, or there is none. *)
Definition table_or_none (wibox : wibox_t) : Prop :=
  match widgets_table wibox with
  | None | Some (LTable _) => True
  | Some _ => False
  end.

(** The ranges of the fields of [area_t]: [x] and [y] are signed,
    [width] and [height] unsigned, all of 16 bits. *)
Definition uint16_range (z : Z) : Prop := 0 ≤ z ≤ 65535.

(** Every number of the entry can be held by the field it is read
    into. *)
Definition fits_area (t : lua_area) : Prop :=
  (∀ z, lua_x t = Some z → int16_range z) ∧ (∀ z, lua_y t = Some z → int16_range z)
  ∧ (∀ z, lua_width t = Some z → uint16_range z)
  ∧ (∀ z, lua_height t = Some z → uint16_range z).

(** ** Sample data *)

(** A textbox-like widget with a fixed natural size. *)
Definition sample_widget (visible : bool) (w h : Z) : widget_t :=
  {| type := Some widget_textbox; isvisible := visible;
     extents := λ _, {| x := 0; y := 0; width := w; height := h |};
     newindex := false; mouse_enter := None; mouse_leave := None;
     env := λ _, 0%nat |}.

(** Widget memory: widget 1 is visible, of natural size 40 x 30; widget 2 is
    hidden; every other address holds a visible 10 x 10 widget. *)
Definition sample_mem : widget_mem :=
  <[1%positive := sample_widget true 40 30]>
    (<[2%positive := sample_widget false 15 15]> (λ _, sample_widget true 10 10)).

Definition sample_ctx (bg_alpha : Z) : draw_context_t :=
  {| ctx_width := 100; ctx_height := 20; ctx_pixmap := 7;
     ctx_bg := {| red := 0; green := 0; blue := 0; alpha := bg_alpha |};
     ctx_phys_screen := 0 |}.

(** A wibox at (300, 10), 100 wide and 20 high. *)
Definition sample_wibox (o : orientation_t) (bg_alpha : Z) (tbl : option lua_value)
    : wibox_t :=
  {| wibox_geometry := {| x := 300; y := 10; width := 100; height := 20 |};
     orientation := o; ctx := sample_ctx bg_alpha; pixmap := 8; gc := 9;
     widgets := []; widgets_table := tbl; need_update := false;
     bg_image := Some 11; screen := 0 |}.

(** Widget tables: widget 1 alone; widgets 1 and 2, the second in a nested
    table, with a string in between; the same with the layout function 5. *)
Definition sample_table_one : lua_value := LTable [(KNumber 1, LWidget 1)].

Definition sample_table : lua_value :=
  LTable [(KNumber 1, LWidget 1); (KNumber 2, LString "gap");
          (KNumber 3, LTable [(KNumber 1, LWidget 2)])].

Definition sample_table_layout : lua_value :=
  LTable [(KNumber 1, LWidget 1); (KString "layout", LFunction 5);
          (KNumber 2, LTable [(KNumber 1, LWidget 2)])].

(** A Lua state whose layout function places the widgets side by side, each
    30 wide, and fails on screens other than 0. *)
Definition sample_L : lua_State :=
  {| widget_objects := sample_mem;
     luaA_dofunction := λ _ geometry _ screen,
       if decide (screen = 0) then
         Some [ {| lua_x := Some 0; lua_y := Some 0;
                   lua_width := Some 30; lua_height := Some (height geometry) |};
                {| lua_x := Some 30; lua_y := None;
                   lua_width := Some 30; lua_height := None |} ]
       else None |}.

(** An X server with one screen whose root window carries the background
    pixmap 42. *)
Definition sample_connection : xcb_connection_t :=
  {| xutil_screen_get := λ _, {| root := 1; width_in_pixels := 1280; height_in_pixels := 800 |};
     xcb_get_property_reply := λ _, Some {| value_len := 1; value := Some 42 |} |}.

(** A Lua state in which every layout function fails. *)
Definition failing_L : lua_State :=
  {| widget_objects := sample_mem; luaA_dofunction := λ _ _ _ _, None |}.

(** A wibox with the given nodes and [need_update] flag. *)
Definition sample_wibox_with (ws : list widget_ptr) (dirty : bool) : wibox_t :=
  set_need_update dirty
    (set_widgets ((λ w, {| widget := w; geometry := zero_area |}) <$> ws)
       (sample_wibox East 65535 None)).

(** A global state: wiboxes 1 and 2 are bars, wibox 3 is the titlebar of a
    client, wibox 4 and all others are not managed; widget 1 is on wiboxes 1,
    3 and the unmanaged ones, widget 2 on wiboxes 1 and 2. *)
Definition sample_globalconf : globalconf_t :=
  {| L := sample_L;
     wibox_objects :=
       <[1%positive := sample_wibox_with [1; 2]%positive false]>
         (<[2%positive := sample_wibox_with [2]%positive false]>
            (λ _, sample_wibox_with [1]%positive false));
     wiboxes := [1; 2]%positive;
     clients := [ {| titlebar := Some 3%positive |}; {| titlebar := None |} ];
     warnings := [];
     next_widget := 3 |}.

(** A type-specific setter that accepts everything and changes nothing. *)
Definition sample_type_newindex (widget : widget_ptr) (token : awesome_token_t)
    (value : lua_value) (G : globalconf_t) : option (Z * globalconf_t) :=
  Some (0, G).

(** A constructor result: a textbox-like object, not yet typed or shown. *)
Definition sample_construct (wc : widget_constructor_t) : widget_t :=
  {| type := None; isvisible := false;
     extents := λ _, {| x := 0; y := 0; width := 12; height := 12 |};
     newindex := true; mouse_enter := None; mouse_leave := None;
     env := λ _, 0%nat |}.

(** An X server that does not answer the request for the root background
    pixmap. *)
Definition silent_connection : xcb_connection_t :=
  {| xutil_screen_get := λ _, {| root := 1; width_in_pixels := 1280; height_in_pixels := 800 |};
     xcb_get_property_reply := λ _, None |}.

(** The metatable of widgets: its methods, here as functions 20 and 21. *)
Definition sample_metatable : list (lua_key * lua_value) :=
  [(KString "buttons", LFunction 20); (KString "extents", LFunction 21)].

(** No widget type has an [index] capability. *)
Definition sample_type_index (widget : widget_ptr)
    : option (awesome_token_t → list lua_value) := None.

(** A global state in which widget 1 has the hook 6, referenced once. *)
Definition hooked_globalconf : globalconf_t :=
  set_widget_objects
    (<[1%positive :=
         set_env (<[6%positive := 1%nat]> (λ _, 0%nat))
           (set_mouse_enter (Some 6%positive) (sample_widget true 40 30))]> sample_mem)
    sample_globalconf.

(** * Properties *)

(** ** widget_getbycoords *)

Lemma to_int16_range z : int16_range (to_int16 z).
Proof.
  unfold int16_range, to_int16.
  pose proof (Z.mod_pos_bound (z + 32768) 65536). lia.
Qed.

Lemma to_int16_id z : int16_range z → to_int16 z = z.
Proof. unfold int16_range, to_int16. intros ?. rewrite Z.mod_small; lia. Qed.

Lemma getbycoords_hit_matches mem px py w :
  getbycoords_hit mem px py w = true ↔ matches mem (px, py) w.
Proof.
  unfold getbycoords_hit, matches, inside. simpl.
  rewrite !andb_true_iff, Z.geb_le, !Z.ltb_lt, Z.geb_le. tauto.
Qed.

Lemma getbycoords_foreach_first_match mem px py widgets :
  first_match mem (px, py) widgets (getbycoords_foreach mem px py widgets).
Proof.
  induction widgets as [|w widgets IH]; simpl.
  - intros w Hw. by apply not_elem_of_nil in Hw.
  - destruct (getbycoords_hit mem px py w) eqn:Hhit.
    + exists [], w, widgets. split_and!; try done.
      * by apply getbycoords_hit_matches.
      * intros w' Hw'. by apply not_elem_of_nil in Hw'.
    + assert (¬ matches mem (px, py) w) as Hno.
      { rewrite <- getbycoords_hit_matches. congruence. }
      destruct (getbycoords_foreach mem px py widgets) as [W|]; simpl in *.
      * destruct IH as (before & w0 & after & -> & HW & Hm & Hbefore).
        exists (w :: before), w0, after. split_and!; try done.
        intros w' [->|Hin]%elem_of_cons; auto.
      * intros w' [->|Hin]%elem_of_cons; auto.
Qed.

(** The coordinates the loop tests are 16-bit values whatever the
    arguments. *)
Lemma getbycoords_transform_range o width height x y :
  int16_range x → int16_range y →
  int16_range (getbycoords_transform o width height x y).1
  ∧ int16_range (getbycoords_transform o width height x y).2.
Proof.
  intros Hx Hy. destruct o; simpl; auto using to_int16_range.
Qed.

(** C10, as the specification words it, fails: for a South wibox 65535 wide
    and the point (-11, 5), [width - x] is 65546, which the 16-bit [*y]
    holds as 10; the node at the origin, 100 x 20, is returned although the
    point (5, 65546) is outside it. *)
Lemma widget_getbycoords_unbounded_transform_fails :
  let widgets := [ {| widget := 1%positive;
                      geometry := {| x := 0; y := 0; width := 100; height := 20 |} |} ] in
  (widget_getbycoords sample_mem South widgets 65535 20 (-11) 5).1 = Some 1%positive
  ∧ ¬ first_match sample_mem (spec_transform South 65535 20 (-11) 5) widgets
        (widget_getbycoords sample_mem South widgets 65535 20 (-11) 5).1.
Proof.
  split; [reflexivity|].
  change (widget_getbycoords sample_mem South _ 65535 20 (-11) 5).1 with (Some 1%positive).
  intros (before & w & after & Heq & _ & [_ [_ Hy]] & _).
  destruct before as [|w0 [|? ?]]; simplify_eq/=; lia.
Qed.

(** C10 (amended): [widget_getbycoords] leaves in [*x], [*y] the transformed
    point, where the differences [width - x] (South) and [height - y] (North)
    are stored as signed 16-bit values; it returns the widget of the first
    node, in collection order, whose widget is visible and whose geometry
    contains that point, and NULL when there is none.  When the differences
    fit in 16 bits the point is the one the specification gives. *)
Theorem widget_getbycoords_first_match mem o widgets width height x y :
  int16_range x → int16_range y →
  let r := widget_getbycoords mem o widgets width height x y in
  r.2 = match o with
        | South => (y, to_int16 (width - x))
        | North => (to_int16 (height - y), x)
        | East => (x, y)
        end
  ∧ first_match mem r.2 widgets r.1
  ∧ (int16_range (width - x) → int16_range (height - y) →
     r.2 = spec_transform o width height x y).
Proof.
  intros Hx Hy r. subst r. unfold widget_getbycoords. simpl.
  split_and!.
  - destruct o; simpl; rewrite ?(to_int16_id x), ?(to_int16_id y) by assumption;
      reflexivity.
  - destruct (getbycoords_transform o width height x y) as [px py].
    apply getbycoords_foreach_first_match.
  - intros Hw Hh. destruct o; simpl;
      rewrite ?(to_int16_id x), ?(to_int16_id y), ?(to_int16_id (width - x)),
        ?(to_int16_id (height - y)) by assumption; reflexivity.
Qed.

(** ** widget_geometries *)

Lemma widget_layout_set_widgets widgets wibox :
  widget_layout (set_widgets widgets wibox) = widget_layout wibox.
Proof. reflexivity. Qed.

(** C1: when the layout field of the widget table is a function, it is
    called once, with the wibox geometry moved to the origin as first
    argument; for every orientation but East the width and height of that
    geometry are those of the wibox exchanged, for East they are passed as
    they are. *)
Theorem widget_geometries_layout_geometry L wibox tbl f :
  widgets_table wibox = Some tbl →
  lua_getfield tbl "layout" = LFunction f →
  let g := layout_geometry wibox in
  res_calls (widget_geometries L wibox) = [call_layout f g tbl (screen wibox)]
  ∧ res_table (widget_geometries L wibox) = luaA_dofunction L f g tbl (screen wibox)
  ∧ x g = 0 ∧ y g = 0
  ∧ (orientation wibox ≠ East →
     width g = height (wibox_geometry wibox) ∧ height g = width (wibox_geometry wibox))
  ∧ (orientation wibox = East →
     width g = width (wibox_geometry wibox) ∧ height g = height (wibox_geometry wibox)).
Proof.
  intros Htbl Hlayout g. subst g.
  unfold widget_geometries, widget_layout, layout_geometry.
  rewrite Htbl, Hlayout. simpl.
  destruct (decide (orientation wibox ≠ East)) as [Hne|He]; simpl.
  - split_and!; try done.
  - apply dec_stable in He. split_and!; try done.
Qed.

(** The default path: its result, spelled out. *)
Lemma widget_geometries_default_path L wibox :
  lua_isfunction (widget_layout wibox) = None →
  widget_geometries L wibox =
    let widgets := luaA_table2widgets (luaA_object_push_item (widgets_table wibox)) [] in
    {| res_table := Some (default_geometry L wibox <$> widgets);
       res_wibox := set_widgets widgets wibox;
       res_calls := (λ node, call_extents (widget node) (screen wibox)) <$> widgets |}.
Proof. intros H. unfold widget_geometries. by rewrite H. Qed.

(** C2: without a layout function, the geometry table has one entry per node
    flattened from the widget table, in order, and the entry of a node is
    x = 0, y = 0, width = min(wibox width, width of the widget's extents),
    height = min(wibox height, height of the widget's extents).  For a South
    wibox 100 wide and 20 high holding one widget whose extents are 40 x 30
    the entry is {x: 0, y: 0, width: 40, height: 20}. *)
Theorem widget_geometries_default L wibox :
  (lua_isfunction (widget_layout wibox) = None →
   let r := widget_geometries L wibox in
   widgets (res_wibox r) = luaA_table2widgets (luaA_object_push_item (widgets_table wibox)) []
   ∧ ∃ geometries, res_table r = Some geometries
     ∧ length geometries = length (widgets (res_wibox r))
     ∧ ∀ (i : nat) node, widgets (res_wibox r) !! i = Some node →
         let natural := extents (widget_objects L (widget node)) (screen wibox) in
         geometries !! i =
           Some {| lua_x := Some 0; lua_y := Some 0;
                   lua_width := Some (Z.min (width (wibox_geometry wibox)) (width natural));
                   lua_height := Some (Z.min (height (wibox_geometry wibox)) (height natural)) |})
  ∧ res_table (widget_geometries sample_L (sample_wibox South 65535 (Some sample_table_one)))
    = Some [ {| lua_x := Some 0; lua_y := Some 0;
                lua_width := Some 40; lua_height := Some 20 |} ].
Proof.
  split; [|reflexivity].
  intros Hdef r. subst r. rewrite (widget_geometries_default_path _ _ Hdef). simpl.
  split; [done|]. eexists. split; [done|]. split.
  - by rewrite length_fmap.
  - intros i node Hnode. by rewrite list_lookup_fmap, Hnode.
Qed.

(** C9: running [widget_geometries] again on the wibox it left, with the same
    Lua state, yields the same nodes (same widgets, same geometries, same
    order), and the same geometry table and calls. *)
Theorem widget_geometries_idempotent L wibox :
  let r1 := widget_geometries L wibox in
  let r2 := widget_geometries L (res_wibox r1) in
  widgets (res_wibox r2) = widgets (res_wibox r1)
  ∧ res_wibox r2 = res_wibox r1
  ∧ res_table r2 = res_table r1
  ∧ res_calls r2 = res_calls r1.
Proof.
  intros r1 r2. subst r1 r2. unfold widget_geometries.
  destruct (lua_isfunction (widget_layout wibox)) as [f|] eqn:Hf; simpl.
  - by rewrite Hf.
  - rewrite widget_layout_set_widgets, Hf. simpl. done.
Qed.

(** ** widget_render *)

(** [widget_geometries] returns false only from the layout path, which
    leaves the wibox as it was. *)
Lemma widget_geometries_failure L wibox :
  res_table (widget_geometries L wibox) = None →
  ∃ f, lua_isfunction (widget_layout wibox) = Some f
    ∧ res_wibox (widget_geometries L wibox) = wibox
    ∧ res_calls (widget_geometries L wibox)
      = [call_layout f (layout_geometry wibox)
           (luaA_object_push_item (widgets_table wibox)) (screen wibox)].
Proof.
  unfold widget_geometries.
  destruct (lua_isfunction (widget_layout wibox)) as [f|]; simpl; [|done].
  intros _. by exists f.
Qed.

(** [widget_geometries] itself paints nothing and asks the X server
    nothing. *)
Lemma widget_geometries_calls L wibox c :
  c ∈ res_calls (widget_geometries L wibox) →
  (∃ f g tbl s, c = call_layout f g tbl s) ∨ (∃ w s, c = call_extents w s).
Proof.
  unfold widget_geometries.
  destruct (lua_isfunction (widget_layout wibox)) as [f|]; simpl.
  - intros ->%list_elem_of_singleton. left. eauto.
  - intros (node & -> & _)%list_elem_of_fmap. right. eauto.
Qed.

(** C4: when [widget_geometries] returns false, [widget_render] stops there:
    no painting call is made (no copy of the root background, no background
    image or fill, no widget drawn, no rotation), the only call logged is
    the failed layout call, and the wibox, its [need_update] flag included,
    is as before. *)
Theorem widget_render_aborts L connection wibox :
  res_table (widget_geometries L wibox) = None →
  let r := widget_render L connection wibox in
  rnd_status r = render_aborted
  ∧ (∀ c, c ∈ rnd_calls r → is_paint c = false)
  ∧ rnd_calls r = res_calls (widget_geometries L wibox)
  ∧ rnd_wibox r = wibox
  ∧ need_update (rnd_wibox r) = need_update wibox.
Proof.
  intros Hfail r. subst r.
  destruct (widget_geometries_failure _ _ Hfail) as (f & _ & Hwibox & Hcalls).
  unfold widget_render. rewrite Hfail. simpl.
  split_and!; try done.
  - rewrite Hcalls. by intros c ->%list_elem_of_singleton.
  - by rewrite Hwibox.
Qed.

Section filter.
Context {A : Type} (P : A → Prop) `{!∀ a, Decision (P a)}.

Lemma filter_none (l : list A) : (∀ a, a ∈ l → ¬ P a) → filter P l = [].
Proof.
  induction l as [|a l IH]; intros Hl; [done|].
  rewrite filter_cons_False by (apply Hl; left).
  apply IH. intros b Hb. apply Hl. by right.
Qed.

Lemma filter_all (l : list A) : (∀ a, a ∈ l → P a) → filter P l = l.
Proof.
  induction l as [|a l IH]; intros Hl; [done|].
  rewrite filter_cons_True by (apply Hl; left).
  f_equal. apply IH. intros b Hb. apply Hl. by right.
Qed.
End filter.

Lemma render_root_background_calls connection wibox c :
  c ∈ render_root_background connection wibox → is_draw c = false.
Proof.
  unfold render_root_background. intros [->|Hc]%elem_of_cons; [done|].
  destruct (xcb_get_property_reply _ _) as [prop_r|]; [|by apply not_elem_of_nil in Hc].
  destruct (value prop_r) as [rootpix|]; [|by apply not_elem_of_nil in Hc].
  destruct (_ && _); [|by apply not_elem_of_nil in Hc].
  destruct (orientation wibox); apply list_elem_of_singleton in Hc; by subst.
Qed.

Lemma render_rotate_calls wibox c :
  c ∈ render_rotate wibox →
  ∃ sw sh dw dh angle tx ty,
    c = call_draw_rotate (ctx wibox) (ctx_pixmap (ctx wibox)) (pixmap wibox)
          sw sh dw dh angle tx ty.
Proof.
  unfold render_rotate. destruct (orientation wibox); simpl.
  - intros ->%list_elem_of_singleton. by repeat eexists.
  - intros ->%list_elem_of_singleton. by repeat eexists.
  - by intros ?%not_elem_of_nil.
Qed.

Lemma render_draw_calls L wibox c :
  c ∈ render_draw L wibox ↔
  ∃ node, node ∈ widgets wibox
    ∧ isvisible (widget_objects L (widget node)) = true
    ∧ c = call_draw (widget node) (ctx wibox) (geometry node) wibox.
Proof.
  unfold render_draw. rewrite list_elem_of_fmap. split.
  - intros (node & -> & [Hvis Hin]%list_elem_of_filter). eauto.
  - intros (node & Hin & Hvis & ->). exists node. split; [done|].
    by apply list_elem_of_filter.
Qed.

(** The calls of a completed render, in order. *)
Lemma widget_render_done L connection wibox :
  let r := widget_render L connection wibox in
  rnd_status r = render_done →
  ctx (rnd_wibox r) = ctx wibox
  ∧ ∃ background image,
      rnd_calls r = res_calls (widget_geometries L wibox) ++ background ++ image
        ++ [call_draw_rectangle (ctx wibox)
              {| x := 0; y := 0; width := ctx_width (ctx wibox);
                 height := ctx_height (ctx wibox) |} true (ctx_bg (ctx wibox))]
        ++ render_draw L (rnd_wibox r) ++ render_rotate (rnd_wibox r)
      ∧ (∀ c, c ∈ background → c ∈ render_root_background connection
                                        (res_wibox (widget_geometries L wibox)))
      ∧ (alpha (ctx_bg (ctx wibox)) = 65535 → background = [] ∧ image = [])
      ∧ (∀ c, c ∈ image → ∃ i, c = call_draw_image (ctx wibox) 0 0 i).

Proof.
  intros r. subst r. unfold widget_render.
  assert (ctx (res_wibox (widget_geometries L wibox)) = ctx wibox) as Hctx.
  { unfold widget_geometries. by destruct (lua_isfunction _). }
  destruct (res_table (widget_geometries L wibox)) as [tbl|]; [|done].
  destruct (render_get_geometries _ _ _ _) as [nodes|]; [|done].
  simpl. rewrite Hctx. intros _. split; [done|].
  exists (if bool_decide (alpha (ctx_bg (ctx wibox)) = 65535) then []
          else render_root_background connection (res_wibox (widget_geometries L wibox))),
    (match bg_image (res_wibox (widget_geometries L wibox)) with
     | Some i =>
         if bool_decide (alpha (ctx_bg (ctx wibox)) = 65535) then []
         else [call_draw_image (ctx wibox) 0 0 i]
     | None => []
     end).
  split; [by rewrite <- app_assoc|].
  split_and!.
  - intros c. case_bool_decide; [by intros ?%not_elem_of_nil|done].
  - intros Ha. rewrite bool_decide_eq_true_2 by done.
    by destruct (bg_image _).
  - intros c. destruct (bg_image _) as [i|]; [|by intros ?%not_elem_of_nil].
    case_bool_decide; [by intros ?%not_elem_of_nil|].
    intros ->%list_elem_of_singleton. eauto.
Qed.

(** C6: with a fully opaque background colour (alpha 0xffff) the render
    never asks for the root window's background pixmap, never copies an
    area, and never draws the background image; the only rotation it can
    make is the closing one, of its own buffer onto the wibox's pixmap. *)
Theorem widget_render_opaque L connection wibox :
  alpha (ctx_bg (ctx wibox)) = 65535 →
  let r := widget_render L connection wibox in
  ∀ c, c ∈ rnd_calls r →
    match c with
    | call_get_property _ | call_copy_area _ _ _ _ _ _ _ _ _
    | call_draw_image _ _ _ _ => False
    | call_draw_rotate _ src dst _ _ _ _ _ _ _ =>
        rnd_status r = render_done ∧ c ∈ render_rotate (rnd_wibox r)
        ∧ src = ctx_pixmap (ctx wibox) ∧ dst = pixmap wibox
    | _ => True
    end.
Proof.
  intros Ha r c. subst r. unfold widget_render.
  assert (ctx (res_wibox (widget_geometries L wibox)) = ctx wibox
          ∧ pixmap (res_wibox (widget_geometries L wibox)) = pixmap wibox) as [Hctx Hpix].
  { unfold widget_geometries. by destruct (lua_isfunction _). }
  assert (∀ c, c ∈ res_calls (widget_geometries L wibox) →
            match c with call_layout _ _ _ _ | call_extents _ _ => True | _ => False end)
    as Hres.
  { by intros c' [(? & ? & ? & ? & ->)|(? & ? & ->)]%widget_geometries_calls. }
  destruct (res_table (widget_geometries L wibox)) as [tbl|]; simpl.
  2: { intros Hc%Hres. by destruct c. }
  rewrite Hctx, (bool_decide_eq_true_2 _ Ha), app_nil_r.
  destruct (render_get_geometries _ _ _ _) as [nodes|]; simpl.
  2: { intros Hc%Hres. by destruct c. }
  replace (match bg_image (res_wibox (widget_geometries L wibox)) with
           | Some _ => [] | None => [] end) with (@nil call) by by destruct (bg_image _).
  simpl. rewrite elem_of_app, elem_of_cons, elem_of_app.
  intros [Hc%Hres|[->|[Hc|Hc]]]; [by destruct c|done| |].
  - by apply render_draw_calls in Hc as (node & _ & _ & ->).
  - pose proof Hc as (? & ? & ? & ? & ? & ? & ? & ->)%render_rotate_calls.
    simpl in *. by rewrite Hctx, Hpix in *.
Qed.

(** With a background that is not fully opaque, a render that gets its
    geometries does ask for the root window's background pixmap. *)
Lemma widget_render_translucent_queries L connection wibox :
  alpha (ctx_bg (ctx wibox)) ≠ 65535 →
  rnd_status (widget_render L connection wibox) ≠ render_aborted →
  call_get_property (root (xutil_screen_get connection (ctx_phys_screen (ctx wibox))))
    ∈ rnd_calls (widget_render L connection wibox).
Proof.
  intros Ha. unfold widget_render.
  assert (ctx (res_wibox (widget_geometries L wibox)) = ctx wibox) as Hctx.
  { unfold widget_geometries. by destruct (lua_isfunction _). }
  destruct (res_table (widget_geometries L wibox)) as [tbl|]; simpl; [|done].
  intros _. rewrite Hctx, (bool_decide_eq_false_2 _ Ha).
  assert (call_get_property (root (xutil_screen_get connection (ctx_phys_screen (ctx wibox))))
            ∈ render_root_background connection (res_wibox (widget_geometries L wibox))) as Hq.
  { unfold render_root_background. rewrite Hctx. left. }
  destruct (render_get_geometries _ _ _ _); simpl; rewrite !elem_of_app; auto.
Qed.

(** ** widget_invalidate_bywidget *)

Lemma invalidate_has_widget_contains w wibox :
  invalidate_has_widget w wibox = true ↔ contains_widget w wibox.
Proof.
  unfold invalidate_has_widget, contains_widget. rewrite existsb_exists.
  split; intros (wnode & Hin & Hw); exists wnode.
  - apply list_elem_of_In in Hin. by apply bool_decide_eq_true in Hw.
  - split; [by apply list_elem_of_In|by apply bool_decide_eq_true].
Qed.

Lemma invalidate_mark_idemp w wibox :
  invalidate_mark w (invalidate_mark w wibox) = invalidate_mark w wibox.
Proof.
  unfold invalidate_mark.
  destruct (negb (need_update wibox) && invalidate_has_widget w wibox) eqn:E; [done|].
  by rewrite E.
Qed.

Lemma invalidate_one_lookup w objs q p :
  invalidate_one w objs q p = if decide (q = p) then invalidate_mark w (objs p) else objs p.
Proof.
  unfold invalidate_one, invalidate_mark. destruct (decide (q = p)) as [->|Hne].
  - destruct (_ && _); [by rewrite fn_lookup_insert|done].
  - destruct (_ && _); [by rewrite fn_lookup_insert_ne|done].
Qed.

(** The first loop, over an array of wibox pointers: every wibox pointed to
    is visited, whether the array names it once or several times. *)
Lemma invalidate_foldl w ps : ∀ objs p,
  foldl (invalidate_one w) objs ps p
  = if decide (p ∈ ps) then invalidate_mark w (objs p) else objs p.
Proof.
  induction ps as [|q ps IH]; intros objs p; cbn [foldl].
  - by rewrite decide_False by apply not_elem_of_nil.
  - rewrite IH, invalidate_one_lookup.
    destruct (decide (q = p)) as [->|Hne].
    + rewrite (decide_True (P := p ∈ p :: ps)) by left.
      case_decide; [apply invalidate_mark_idemp|done].
    + destruct (decide (p ∈ ps)) as [Hin|Hnin].
      * by rewrite decide_True by by right.
      * rewrite decide_False; [done|]. intros [->|?]%elem_of_cons; done.
Qed.

(** The second loop visits the titlebars the clients have. *)
Lemma invalidate_foldl_titlebar w cs : ∀ objs,
  foldl (invalidate_titlebar w) objs cs
  = foldl (invalidate_one w) objs (omap titlebar cs).
Proof.
  induction cs as [|c cs IH]; intros objs; simpl; [done|].
  rewrite IH. unfold invalidate_titlebar. by destruct (titlebar c).
Qed.

Lemma managed_titlebar G p :
  (∃ c, c ∈ clients G ∧ titlebar c = Some p) ↔ p ∈ omap titlebar (clients G).
Proof. by rewrite list_elem_of_omap. Qed.

Lemma managed_or_not G p : managed G p ∨ ¬ managed G p.
Proof.
  unfold managed. rewrite managed_titlebar.
  destruct (decide (p ∈ wiboxes G)); destruct (decide (p ∈ omap titlebar (clients G)));
    tauto.
Qed.

(** [widget_invalidate_bywidget], wibox by wibox. *)
Lemma widget_invalidate_bywidget_lookup w G p :
  (managed G p →
   wibox_objects (widget_invalidate_bywidget w G) p = invalidate_mark w (wibox_objects G p))
  ∧ (¬ managed G p →
     wibox_objects (widget_invalidate_bywidget w G) p = wibox_objects G p).
Proof.
  unfold widget_invalidate_bywidget, managed. simpl.
  rewrite invalidate_foldl_titlebar, !invalidate_foldl, managed_titlebar.
  destruct (decide (p ∈ wiboxes G)) as [H1|H1];
    destruct (decide (p ∈ omap titlebar (clients G))) as [H2|H2];
    (split; [intros Hm|intros Hm]); try tauto.
  apply invalidate_mark_idemp.
Qed.

(** A managed wibox holding the widget needs an update afterwards. *)
Lemma widget_invalidate_bywidget_sets w G p :
  managed G p → contains_widget w (wibox_objects G p) →
  need_update (wibox_objects (widget_invalidate_bywidget w G) p) = true.
Proof.
  intros Hm Hc%invalidate_has_widget_contains.
  rewrite (proj1 (widget_invalidate_bywidget_lookup w G p) Hm).
  unfold invalidate_mark. rewrite Hc.
  by destruct (need_update (wibox_objects G p)) eqn:E.
Qed.

(** C3: [widget_invalidate_bywidget w] sets [need_update] on every managed
    wibox, one of [globalconf.wiboxes] or the titlebar of a client, whose
    nodes contain [w], and leaves every wibox whose nodes do not contain
    [w] as it was, its flag included, also when the flag was false.  No
    wibox changes in anything but the flag. *)
Theorem widget_invalidate_bywidget_dirty w G p :
  let G' := widget_invalidate_bywidget w G in
  (managed G p → contains_widget w (wibox_objects G p) →
   need_update (wibox_objects G' p) = true)
  ∧ (¬ contains_widget w (wibox_objects G p) →
     wibox_objects G' p = wibox_objects G p
     ∧ need_update (wibox_objects G' p) = need_update (wibox_objects G p))
  ∧ wibox_objects G' p
    = set_need_update (need_update (wibox_objects G' p)) (wibox_objects G p).
Proof.
  intros G'. subst G'.
  destruct (widget_invalidate_bywidget_lookup w G p) as [Hin Hout].
  assert (∀ wibox, set_need_update (need_update wibox) wibox = wibox) as Hid
    by by intros [].
  split_and!.
  - apply widget_invalidate_bywidget_sets.
  - intros Hc. rewrite <- invalidate_has_widget_contains in Hc.
    apply not_true_is_false in Hc.
    assert (invalidate_mark w (wibox_objects G p) = wibox_objects G p) as Hmark.
    { unfold invalidate_mark. by rewrite Hc, andb_false_r. }
    assert (wibox_objects (widget_invalidate_bywidget w G) p = wibox_objects G p) as ->;
      [|done].
    destruct (managed_or_not G p) as [Hm|Hm]; [by rewrite (Hin Hm)|by apply Hout].
  - destruct (managed_or_not G p) as [Hm|Hm].
    + rewrite (Hin Hm). unfold invalidate_mark. destruct (_ && _); [done|by rewrite Hid].
    + rewrite (Hout Hm). by rewrite Hid.
Qed.

(** ** The Lua interface *)

Section newindex.
Variable type_newindex :
  widget_ptr → awesome_token_t → lua_value → globalconf_t → option (Z * globalconf_t).
Variables (widget : widget_ptr) (G : globalconf_t).

Let obj := widget_objects (L G) widget.

(** The reference counts after the hook [old] has been released and [f]
    acquired. *)
Lemma hook_references (old : option lua_function) f :
  let obj' := (luaA_object_ref_item (luaA_object_unref_item obj old) f).1 in
  env obj' f = S (if decide (old = Some f) then Nat.pred (env obj f) else env obj f)
  ∧ ∀ g, g ≠ f →
      env obj' g = if decide (old = Some g) then Nat.pred (env obj g) else env obj g.
Proof.
  assert (∀ g, env (luaA_object_unref_item obj old) g
               = if decide (old = Some g) then Nat.pred (env obj g) else env obj g) as Hunref.
  { intros g. destruct old as [h|]; cbn [luaA_object_unref_item set_env env].
    - destruct (decide (h = g)) as [->|Hne].
      + by rewrite fn_lookup_insert, decide_True.
      + rewrite fn_lookup_insert_ne by done. rewrite decide_False; [done|congruence].
    - by rewrite decide_False. }
  cbn [luaA_object_ref_item fst set_env env]. split.
  - by rewrite fn_lookup_insert, Hunref.
  - intros g Hg. by rewrite fn_lookup_insert_ne, Hunref.
Qed.

(** C7: writing [visible] stores the flag and then runs
    [widget_invalidate_bywidget] on the widget, so that every managed wibox
    showing it needs an update; writing [mouse_enter] or [mouse_leave]
    releases the reference on the old hook, acquires one on the new hook,
    stores it, and returns with every wibox as it was: no invalidation. *)
Theorem luaA_widget_newindex_generic :
  (∀ b, ∃ G',
     luaA_widget_newindex type_newindex widget "visible" (LBoolean b) G = Some (0, G')
     ∧ G' = widget_invalidate_bywidget widget
              (set_widget_objects (<[widget := set_isvisible b obj]> (widget_objects (L G))) G)
     ∧ isvisible (widget_objects (L G') widget) = b
     ∧ ∀ p, managed G p → contains_widget widget (wibox_objects G p) →
         need_update (wibox_objects G' p) = true)
  ∧ (∀ f, ∃ G',
       luaA_widget_newindex type_newindex widget "mouse_enter" (LFunction f) G = Some (0, G')
       ∧ mouse_enter (widget_objects (L G') widget) = Some f
       ∧ env (widget_objects (L G') widget) f
         = S (if decide (mouse_enter obj = Some f) then Nat.pred (env obj f) else env obj f)
       ∧ (∀ g, g ≠ f →
            env (widget_objects (L G') widget) g
            = if decide (mouse_enter obj = Some g) then Nat.pred (env obj g) else env obj g)
       ∧ wibox_objects G' = wibox_objects G)
  ∧ (∀ f, ∃ G',
       luaA_widget_newindex type_newindex widget "mouse_leave" (LFunction f) G = Some (0, G')
       ∧ mouse_leave (widget_objects (L G') widget) = Some f
       ∧ env (widget_objects (L G') widget) f
         = S (if decide (mouse_leave obj = Some f) then Nat.pred (env obj f) else env obj f)
       ∧ (∀ g, g ≠ f →
            env (widget_objects (L G') widget) g
            = if decide (mouse_leave obj = Some g) then Nat.pred (env obj g) else env obj g)
       ∧ wibox_objects G' = wibox_objects G).
Proof.
  split_and!.
  - intros b. eexists. split; [reflexivity|]. split; [reflexivity|]. split.
    + simpl. by rewrite fn_lookup_insert.
    + intros p Hm Hc.
      by apply (widget_invalidate_bywidget_sets widget
                  (set_widget_objects
                     (<[widget := set_isvisible b obj]> (widget_objects (L G))) G) p).
  - intros f. eexists. split; [reflexivity|].
    destruct (hook_references (mouse_enter obj) f) as [Hf Hg].
    simpl. rewrite fn_lookup_insert. simpl. by split_and!.
  - intros f. eexists. split; [reflexivity|].
    destruct (hook_references (mouse_leave obj) f) as [Hf Hg].
    simpl. rewrite fn_lookup_insert. simpl. by split_and!.
Qed.
End newindex.

Ltac in_names :=
  unfold widget_type_names; rewrite !elem_of_cons; auto 10.

Lemma widget_type_names_tokens name wc :
  (name, wc) ∈ widget_type_names →
  match a_tokenize (Some name) with
  | A_TK_TEXTBOX => wc = widget_textbox
  | A_TK_PROGRESSBAR => wc = widget_progressbar
  | A_TK_GRAPH => wc = widget_graph
  | A_TK_SYSTRAY => wc = widget_systray
  | A_TK_IMAGEBOX => wc = widget_imagebox
  | _ => False
  end.
Proof.
  unfold widget_type_names. rewrite !elem_of_cons, elem_of_nil.
  intros [?|[?|[?|[?|[?|[]]]]]]; by simplify_eq.
Qed.

Lemma a_tokenize_type_name buf :
  match a_tokenize buf with
  | A_TK_TEXTBOX => buf = Some "textbox"
  | A_TK_PROGRESSBAR => buf = Some "progressbar"
  | A_TK_GRAPH => buf = Some "graph"
  | A_TK_SYSTRAY => buf = Some "systray"
  | A_TK_IMAGEBOX => buf = Some "imagebox"
  | _ => True
  end.
Proof.
  destruct buf as [s|]; simpl; [|done].
  repeat case_decide; by subst.
Qed.

(** C8: [luaA_widget_new] maps each of the type names textbox, progressbar,
    graph, systray and imagebox to its constructor and leaves the new widget
    with that type and visible; for any other type name, [bogus] for one,
    and for a missing one, it prints exactly one warning, creates no widget
    and returns none. *)
Theorem luaA_widget_new_types construct type_name G :
  let r := luaA_widget_new construct type_name G in
  (∀ name wc, (name, wc) ∈ widget_type_names → type_name = Some name →
     ∃ w, r.1 = Some w
       ∧ type (widget_objects (L r.2) w) = Some wc
       ∧ isvisible (widget_objects (L r.2) w) = true
       ∧ warnings r.2 = warnings G)
  ∧ ((∀ name wc, (name, wc) ∈ widget_type_names → type_name ≠ Some name) →
     r.1 = None
     ∧ warnings r.2 = warnings G ++ [("unkown widget type: %s", type_name)]
     ∧ widget_objects (L r.2) = widget_objects (L G)
     ∧ next_widget r.2 = next_widget G)
  ∧ (∀ w, r.1 = Some w →
     ∃ name wc, (name, wc) ∈ widget_type_names ∧ type_name = Some name)
  ∧ luaA_widget_new construct (Some "bogus") G
    = (None, luaA_warn "unkown widget type: %s" (Some "bogus") G).
Proof.
  intros r. subst r. split_and!.
  - intros name wc Hin ->. apply widget_type_names_tokens in Hin.
    unfold luaA_widget_new.
    destruct (a_tokenize (Some name)); try done; subst wc; simpl;
      eexists; (split; [done|]); by rewrite fn_lookup_insert.
  - intros Hnot. pose proof (a_tokenize_type_name type_name) as Htok.
    unfold luaA_widget_new.
    destruct (a_tokenize type_name); try done; exfalso;
      (eapply Hnot; [|exact Htok]); in_names.
  - intros w. pose proof (a_tokenize_type_name type_name) as Htok.
    unfold luaA_widget_new.
    destruct (a_tokenize type_name); try done; intros _;
      eexists _, _; (split; [|exact Htok]); in_names.
  - reflexivity.
Qed.

(** ** The functions on the sample data *)

Example getbycoords_first_visible :
  let widgets := [ {| widget := 2%positive;
                      geometry := {| x := 0; y := 0; width := 50; height := 20 |} |};
                   {| widget := 1%positive;
                      geometry := {| x := 0; y := 0; width := 100; height := 20 |} |} ] in
  widget_getbycoords sample_mem East widgets 100 20 10 10 = (Some 1%positive, (10, 10))
  ∧ widget_getbycoords sample_mem South widgets 100 20 10 5 = (None, (5, 90))
  ∧ widget_getbycoords sample_mem North widgets 100 20 3 5 = (Some 1%positive, (15, 3)).
Proof. by split_and!. Qed.

Example table2widgets_nested :
  luaA_table2widgets sample_table_layout []
  = [ {| widget := 1%positive; geometry := zero_area |};
      {| widget := 2%positive; geometry := zero_area |} ].
Proof. reflexivity. Qed.

Example geometries_rotated_layout :
  res_table (widget_geometries sample_L (sample_wibox North 65535 (Some sample_table_layout)))
  = Some [ {| lua_x := Some 0; lua_y := Some 0; lua_width := Some 30; lua_height := Some 100 |};
           {| lua_x := Some 30; lua_y := None; lua_width := Some 30; lua_height := None |} ].
Proof. reflexivity. Qed.

Example render_reads_geometries_back :
  widgets (rnd_wibox (widget_render sample_L sample_connection
                        (sample_wibox South 100 (Some sample_table_layout))))
  = [ {| widget := 1%positive;
         geometry := {| x := 0; y := 0; width := 30; height := 100 |} |};
      {| widget := 2%positive;
         geometry := {| x := 30; y := 10; width := 30; height := 1 |} |} ].
Proof. reflexivity. Qed.

Example render_too_many_geometries :
  rnd_status (widget_render sample_L sample_connection
                (sample_wibox East 100
                   (Some (LTable [(KString "layout", LFunction 5); (KNumber 1, LWidget 1)]))))
  = render_out_of_bounds.
Proof. reflexivity. Qed.

Example render_paint_calls :
  length (filter (λ c, is_paint c)
            (rnd_calls (widget_render sample_L sample_connection
                          (sample_wibox South 100 (Some sample_table_layout))))) = 5%nat
  ∧ length (filter (λ c, is_paint c)
              (rnd_calls (widget_render sample_L sample_connection
                            (sample_wibox North 65535 (Some sample_table))))) = 3%nat
  ∧ filter (λ c, is_paint c)
      (rnd_calls (widget_render failing_L sample_connection
                    (sample_wibox North 100 (Some sample_table_layout)))) = [].
Proof. by split_and!. Qed.

Example invalidate_sample :
  (λ p, need_update (wibox_objects (widget_invalidate_bywidget 1%positive sample_globalconf) p))
    <$> [1; 2; 3; 4]%positive
  = [true; false; true; false].
Proof. reflexivity. Qed.

(** Showing widget 1 marks the wiboxes that hold it; giving it a new hook
    marks none. *)
Example newindex_sample :
  (λ r, (λ p, need_update (wibox_objects r.2 p)) <$> [1; 2; 3]%positive)
    <$> luaA_widget_newindex sample_type_newindex 1%positive "visible" (LBoolean false)
          sample_globalconf
  = Some [true; false; true]
  ∧ (λ r, (λ p, need_update (wibox_objects r.2 p)) <$> [1; 2; 3]%positive)
      <$> luaA_widget_newindex sample_type_newindex 1%positive "mouse_enter" (LFunction 6)
            sample_globalconf
    = Some [false; false; false]
  ∧ luaA_widget_newindex sample_type_newindex 1%positive "visible" (LNumber 1)
      sample_globalconf = None.
Proof. by split_and!. Qed.

Example widget_new_sample :
  (luaA_widget_new sample_construct (Some "systray") sample_globalconf).1 = Some 3%positive
  ∧ warnings (luaA_widget_new sample_construct (Some "bogus") sample_globalconf).2
    = [("unkown widget type: %s", Some "bogus")]
  ∧ warnings (luaA_widget_new sample_construct None sample_globalconf).2
    = [("unkown widget type: %s", None)].
Proof. by split_and!. Qed.

(** * Further properties *)

(** ** luaA_table2widgets *)

(** Induction on Lua values, with the entries of a table as premises. *)
Lemma lua_value_nested_ind (P : lua_value → Prop) :
  P LNil → (∀ b, P (LBoolean b)) → (∀ n, P (LNumber n)) → (∀ s, P (LString s)) →
  (∀ f, P (LFunction f)) → (∀ w, P (LWidget w)) →
  (∀ entries, Forall (λ kv, P kv.2) entries → P (LTable entries)) →
  ∀ v, P v.
Proof.
  intros Hnil Hbool Hnum Hstr Hfun Hwid Htbl. fix IH 1.
  intros [|b|n|s|f|w|entries];
    [apply Hnil|apply Hbool|apply Hnum|apply Hstr|apply Hfun|apply Hwid|].
  apply Htbl. induction entries as [|[k v] entries IHe]; constructor; [apply IH|apply IHe].
Qed.

(** A table is walked entry by entry, each entry continuing from the nodes
    gathered so far. *)
Lemma table2widgets_table entries widgets :
  luaA_table2widgets (LTable entries) widgets
  = foldl (λ ws kv, luaA_table2widgets kv.2 ws) widgets entries.
Proof.
  revert widgets. induction entries as [|[k v] entries IH]; intros widgets; [done|].
  simpl. apply IH.
Qed.

Lemma table2widgets_acc v : ∀ widgets,
  luaA_table2widgets v widgets = widgets ++ luaA_table2widgets v [].
Proof.
  induction v as [| | | | | |entries IH] using lua_value_nested_ind; intros widgets;
    try (simpl; by rewrite app_nil_r); [done|].
  rewrite !table2widgets_table. revert widgets.
  induction IH as [|[k v] entries Hv _ IHe]; intros widgets; simpl.
  - by rewrite app_nil_r.
  - simpl in Hv.
    rewrite (IHe (luaA_table2widgets v widgets)), (IHe (luaA_table2widgets v [])),
      (Hv widgets). by rewrite app_assoc.
Qed.

Lemma table2widgets_cons k v entries :
  luaA_table2widgets (LTable ((k, v) :: entries)) []
  = luaA_table2widgets v [] ++ luaA_table2widgets (LTable entries) [].
Proof.
  rewrite (table2widgets_table (_ :: _)). simpl.
  rewrite <- table2widgets_table. apply table2widgets_acc.
Qed.

Lemma table2widgets_app entries1 entries2 :
  luaA_table2widgets (LTable (entries1 ++ entries2)) []
  = luaA_table2widgets (LTable entries1) [] ++ luaA_table2widgets (LTable entries2) [].
Proof.
  induction entries1 as [|[k v] entries1 IH]; [done|].
  simpl app at 1. by rewrite !table2widgets_cons, IH, app_assoc.
Qed.

(** X1: [luaA_table2widgets] only appends: the nodes already in the array
    stay, in place, and the nodes it adds are those it adds to an empty
    array. *)
Theorem luaA_table2widgets_appends v widgets :
  luaA_table2widgets v widgets = widgets ++ luaA_table2widgets v [].
Proof. apply table2widgets_acc. Qed.

(** X2: grouping is transparent: a table nested in a table yields the nodes
    its entries would yield in its place, whatever the keys; entries that
    are neither tables nor widgets yield nothing. *)
Theorem luaA_table2widgets_flattens before k inner after widgets :
  luaA_table2widgets (LTable (before ++ (k, LTable inner) :: after)) widgets
  = luaA_table2widgets (LTable (before ++ inner ++ after)) widgets
  ∧ ∀ v, (∀ w, v ≠ LWidget w) → (∀ es, v ≠ LTable es) →
      luaA_table2widgets (LTable (before ++ (k, v) :: after)) widgets
      = luaA_table2widgets (LTable (before ++ after)) widgets.
Proof.
  split.
  - rewrite (table2widgets_acc (LTable (before ++ _ :: _))),
      (table2widgets_acc (LTable (before ++ _ ++ _))).
    f_equal. by rewrite !table2widgets_app, table2widgets_cons.
  - intros v Hw Ht.
    rewrite (table2widgets_acc (LTable (before ++ _ :: _))),
      (table2widgets_acc (LTable (before ++ after))).
    f_equal. rewrite !table2widgets_app, table2widgets_cons.
    destruct v; try done; [by destruct (Hw w)|by destruct (Ht entries)].
Qed.

Lemma table2widgets_leaf w v :
  (∃ wnode, wnode ∈ luaA_table2widgets v [] ∧ widget wnode = w) ↔ widget_leaf w v.
Proof.
  induction v as [| | | | |w'|entries IH] using lua_value_nested_ind;
    try (split; [by intros (? & ?%not_elem_of_nil & _)|by inversion 1]).
  - simpl. split.
    + intros (wnode & ->%list_elem_of_singleton & <-). constructor.
    + inversion 1; subst. eexists. split; [by apply list_elem_of_singleton|done].
  - induction IH as [|[k v] entries Hv _ IHe].
    + split; [by intros (? & ?%not_elem_of_nil & _)|].
      inversion 1 as [|? ? ? Hin]; subst. by apply not_elem_of_nil in Hin.
    + rewrite table2widgets_cons. split.
      * intros (wnode & [Hin|Hin]%elem_of_app & Hw).
        -- eapply widget_leaf_entry; [left|]. apply Hv. eauto.
        -- assert (widget_leaf w (LTable entries)) as Hl by (apply IHe; eauto).
           inversion Hl as [|k' v' ? Hin' Hleaf]; subst.
           eapply widget_leaf_entry; [right; exact Hin'|done].
      * inversion 1 as [|k' v' ? Hin Hleaf]; subst.
        apply elem_of_cons in Hin as [[= -> ->]|Hin].
        -- apply Hv in Hleaf as (wnode & Hn & Hw). exists wnode.
           split; [apply elem_of_app; by left|done].
        -- destruct (proj2 IHe) as (wnode & Hn & Hw);
             [by eapply widget_leaf_entry|].
           exists wnode. split; [apply elem_of_app; by right|done].
Qed.

Lemma table2widgets_cleared v :
  ∀ wnode, wnode ∈ luaA_table2widgets v [] → geometry wnode = zero_area.
Proof.
  induction v as [| | | | |w'|entries IH] using lua_value_nested_ind;
    try (by intros ? ?%not_elem_of_nil).
  - by intros wnode ->%list_elem_of_singleton.
  - induction IH as [|[k v] entries Hv _ IHe]; [by intros ? ?%not_elem_of_nil|].
    rewrite table2widgets_cons. intros wnode [Hin|Hin]%elem_of_app; auto.
Qed.

(** X3: the nodes [luaA_table2widgets] makes are exactly those of the widgets
    met in the value, the value itself or an entry at any depth, and each
    new node has a cleared geometry. *)
Theorem luaA_table2widgets_leaves v w :
  ((∃ wnode, wnode ∈ luaA_table2widgets v [] ∧ widget wnode = w) ↔ widget_leaf w v)
  ∧ ∀ wnode, wnode ∈ luaA_table2widgets v [] → geometry wnode = zero_area.
Proof. split; [apply table2widgets_leaf|apply table2widgets_cleared]. Qed.

(** ** widget_geometries *)

Lemma widget_geometries_same_but_widgets L wibox :
  same_but_widgets (res_wibox (widget_geometries L wibox)) wibox.
Proof.
  unfold widget_geometries, same_but_widgets.
  by destruct (lua_isfunction (widget_layout wibox)).
Qed.

(** X4: [widget_geometries] changes nothing of the wibox but its node
    collection; when the widget table has a layout function it does not
    change the nodes either, whether the call succeeds or fails, so the nodes
    of the previous pass stay. *)
Theorem widget_geometries_frame L wibox :
  same_but_widgets (res_wibox (widget_geometries L wibox)) wibox
  ∧ (∀ f, lua_isfunction (widget_layout wibox) = Some f →
       res_wibox (widget_geometries L wibox) = wibox).
Proof.
  split; [apply widget_geometries_same_but_widgets|].
  intros f Hf. unfold widget_geometries. by rewrite Hf.
Qed.

Lemma no_leaf_flattened wibox :
  (∀ tbl w, widgets_table wibox = Some tbl → ¬ widget_leaf w tbl) →
  flattened wibox = [].
Proof.
  intros Hno. unfold flattened.
  destruct (widgets_table wibox) as [tbl|] eqn:Htbl; simpl; [|done].
  destruct (luaA_table2widgets tbl []) as [|wnode ws] eqn:E; [done|].
  destruct (Hno tbl (widget wnode) eq_refl).
  apply table2widgets_leaf. exists wnode. split; [|done]. rewrite E. left.
Qed.

(** X5: for a wibox without widget table, or whose widget table is a table
    that holds no widget at any depth and no layout function,
    [widget_geometries] returns true with an empty geometry table, empties
    the node collection and makes no call. *)
Theorem widget_geometries_no_widget L wibox :
  table_or_none wibox →
  lua_isfunction (widget_layout wibox) = None →
  (∀ tbl w, widgets_table wibox = Some tbl → ¬ widget_leaf w tbl) →
  widget_geometries L wibox
  = {| res_table := Some []; res_wibox := set_widgets [] wibox; res_calls := [] |}.
Proof.
  intros _ Hdef Hno. rewrite (widget_geometries_default_path _ _ Hdef).
  fold (flattened wibox). by rewrite (no_leaf_flattened _ Hno).
Qed.

(** X6: without a layout function the geometry table does not depend on the
    orientation: the widget sizes are clamped to the wibox width and height
    as they are, with no exchange for North and South. *)
Theorem widget_geometries_default_orientation L wibox o :
  lua_isfunction (widget_layout wibox) = None →
  res_table (widget_geometries L (set_orientation o wibox))
  = res_table (widget_geometries L wibox)
  ∧ widgets (res_wibox (widget_geometries L (set_orientation o wibox)))
    = widgets (res_wibox (widget_geometries L wibox)).
Proof.
  intros Hdef.
  rewrite (widget_geometries_default_path L wibox Hdef),
    (widget_geometries_default_path L (set_orientation o wibox) Hdef).
  done.
Qed.

(** ** widget_render: reading the geometries back *)

Lemma render_get_geometries_length wibox tbl : ∀ i widgets widgets',
  render_get_geometries wibox tbl i widgets = Some widgets' →
  length widgets' = length widgets.
Proof.
  induction tbl as [|t tbl IH]; intros i widgets widgets'; simpl.
  - by intros [= ->].
  - destruct (widgets !! i) as [node|]; [|done].
    intros ->%IH. by rewrite length_insert.
Qed.

(** The loop fails exactly when it is asked to go beyond the array. *)
Lemma render_get_geometries_is_Some wibox tbl : ∀ i widgets,
  tbl ≠ [] →
  is_Some (render_get_geometries wibox tbl i widgets)
  ↔ (i + length tbl ≤ length widgets)%nat.
Proof.
  induction tbl as [|t tbl IH]; intros i widgets Hne; [done|]. simpl.
  destruct (widgets !! i) as [node|] eqn:Hi.
  - apply lookup_lt_Some in Hi. destruct tbl as [|t' tbl].
    + simpl. split; [lia|by eexists].
    + rewrite IH by done. rewrite length_insert. simpl. lia.
  - apply lookup_ge_None in Hi. split; [by intros [? ?]|lia].
Qed.

(** What the loop leaves at each index. *)
Lemma render_get_geometries_lookup wibox tbl : ∀ i widgets widgets' (j : nat),
  render_get_geometries wibox tbl i widgets = Some widgets' →
  widgets' !! j
  = if decide (i ≤ j < i + length tbl)%nat
    then match widgets !! j, tbl !! (j - i)%nat with
         | Some node, Some t =>
             Some {| widget := widget node; geometry := read_geometry wibox t |}
         | _, _ => None
         end
    else widgets !! j.
Proof.
  induction tbl as [|t tbl IH]; intros i widgets widgets' j; simpl.
  - intros [= ->]. rewrite decide_False by lia. done.
  - destruct (widgets !! i) as [node|] eqn:Hi; [|done].
    intros Hrun. rewrite (IH _ _ _ j Hrun).
    apply lookup_lt_Some in Hi as Hlt.
    destruct (decide (j = i)) as [->|Hne].
    + rewrite decide_False by lia. rewrite decide_True by lia.
      rewrite list_lookup_insert_eq by done.
      rewrite Hi, Nat.sub_diag. done.
    + rewrite list_lookup_insert_ne by done.
      destruct (decide (S i ≤ j < S i + length tbl)%nat).
      * rewrite decide_True by lia.
        replace (j - i)%nat with (S (j - S i)) by lia. done.
      * rewrite decide_False by lia. done.
Qed.

Lemma res_wibox_flattened L wibox :
  flattened (res_wibox (widget_geometries L wibox)) = flattened wibox.
Proof.
  unfold flattened.
  by destruct (widget_geometries_same_but_widgets L wibox) as (_ & _ & _ & _ & _ & -> & _).
Qed.

Lemma read_geometry_res_wibox L wibox t :
  read_geometry (res_wibox (widget_geometries L wibox)) t = read_geometry wibox t.
Proof.
  unfold read_geometry.
  by destruct (widget_geometries_same_but_widgets L wibox) as (-> & _).
Qed.

(** [widget_render], once the geometries are there. *)
Lemma widget_render_read L connection wibox tbl :
  res_table (widget_geometries L wibox) = Some tbl →
  match render_get_geometries (res_wibox (widget_geometries L wibox)) tbl 0 (flattened wibox) with
  | Some nodes =>
      rnd_status (widget_render L connection wibox) = render_done
      ∧ rnd_wibox (widget_render L connection wibox)
        = set_widgets nodes (res_wibox (widget_geometries L wibox))
  | None =>
      rnd_status (widget_render L connection wibox) = render_out_of_bounds
      ∧ rnd_wibox (widget_render L connection wibox)
        = set_widgets (flattened wibox) (res_wibox (widget_geometries L wibox))
  end.
Proof.
  intros Htbl. unfold widget_render. rewrite Htbl.
  fold (flattened (res_wibox (widget_geometries L wibox))).
  rewrite res_wibox_flattened.
  by destruct (render_get_geometries _ _ _ _).
Qed.

Lemma widget_render_completes L connection wibox tbl :
  res_table (widget_geometries L wibox) = Some tbl →
  (length tbl ≤ length (flattened wibox))%nat →
  rnd_status (widget_render L connection wibox) = render_done.
Proof.
  intros Htbl Hle.
  pose proof (widget_render_read L connection wibox tbl Htbl) as Hread.
  destruct tbl as [|t tbl]; [by apply Hread|].
  pose proof (render_get_geometries_is_Some
                (res_wibox (widget_geometries L wibox)) (t :: tbl) 0 (flattened wibox)) as Hsome.
  destruct (render_get_geometries _ _ _ _) as [nodes|]; [by apply Hread|].
  destruct (proj2 (Hsome ltac:(done)) Hle) as [? ?]. done.
Qed.



(** The nodes of a completed render. *)
Lemma widget_render_done_nodes L connection wibox tbl :
  res_table (widget_geometries L wibox) = Some tbl →
  rnd_status (widget_render L connection wibox) = render_done →
  length (widgets (rnd_wibox (widget_render L connection wibox)))
  = length (flattened wibox)
  ∧ ∀ (j : nat) node, flattened wibox !! j = Some node →
      widgets (rnd_wibox (widget_render L connection wibox)) !! j
      = Some {| widget := widget node;
                geometry := match tbl !! j with
                            | Some t => read_geometry wibox t
                            | None => zero_area
                            end |}.
Proof.
  intros Htbl Hdone.
  pose proof (widget_render_read L connection wibox tbl Htbl) as Hread.
  destruct (render_get_geometries _ _ _ _) as [nodes|] eqn:Hrun.
  2: { destruct Hread as [Hs _]. congruence. }
  destruct Hread as [_ ->]. simpl. split.
  - by apply render_get_geometries_length in Hrun.
  - intros j node Hj. rewrite (render_get_geometries_lookup _ _ _ _ _ j Hrun), Hj.
    rewrite Nat.sub_0_r.
    destruct (decide (0 ≤ j < 0 + length tbl)%nat) as [Hin|Hout].
    + destruct (tbl !! j) eqn:Ht; [by rewrite read_geometry_res_wibox|].
      apply lookup_ge_None in Ht. lia.
    + rewrite (lookup_ge_None_2 tbl j) by lia. f_equal.
      destruct node as [w g]. f_equal. simpl.
      eapply (table2widgets_cleared _ {| widget := w; geometry := g |}).
      apply list_elem_of_lookup. eauto.
Qed.

(** C5: in a render that completes, the nodes are those of the widgets of
    the widget table, in order, and the draw capability is called exactly
    for the nodes whose widget is visible: the draw calls are, in order,
    those of the visible nodes, each with the context, the node's geometry
    and the wibox; a node with a visible widget has its call, every visible
    widget of the widget table is drawn, and no call draws an invisible
    widget. *)
Theorem widget_render_draws_visible L connection wibox :
  let r := widget_render L connection wibox in
  rnd_status r = render_done →
  widget <$> widgets (rnd_wibox r) = widget <$> flattened wibox
  ∧ filter (λ c, is_draw c) (rnd_calls r)
    = (λ node, call_draw (widget node) (ctx wibox) (geometry node) (rnd_wibox r))
        <$> filter (λ node, isvisible (widget_objects L (widget node)) = true)
              (widgets (rnd_wibox r))
  ∧ (∀ node, node ∈ widgets (rnd_wibox r) →
       isvisible (widget_objects L (widget node)) = true →
       call_draw (widget node) (ctx wibox) (geometry node) (rnd_wibox r) ∈ rnd_calls r)
  ∧ (∀ tbl w, widgets_table wibox = Some tbl → widget_leaf w tbl →
       isvisible (widget_objects L w) = true →
       ∃ g, call_draw w (ctx wibox) g (rnd_wibox r) ∈ rnd_calls r)
  ∧ (∀ w c g wb, isvisible (widget_objects L w) = false →
       call_draw w c g wb ∉ rnd_calls r).
Proof.
  intros r Hdone.
  destruct (widget_render_done L connection wibox Hdone)
    as (Hctx & background & image & Hcalls & Hbg & _ & Himg).
  fold r in Hctx, Hcalls.
  assert (filter (λ c, is_draw c) (rnd_calls r) = render_draw L (rnd_wibox r)) as Hdraws.
  { rewrite Hcalls, !list.filter_app.
    rewrite (filter_none _ (res_calls _)), (filter_none _ background),
      (filter_none _ image), (filter_none _ (render_rotate _)),
      (filter_all _ (render_draw _ _)); simpl.
    - by rewrite app_nil_r.
    - by intros c (node & _ & _ & ->)%render_draw_calls.
    - intros c (? & ? & ? & ? & ? & ? & ? & ->)%render_rotate_calls. simpl. auto.
    - intros c [i ->]%Himg. simpl. auto.
    - intros c Hc%Hbg%render_root_background_calls. rewrite Hc. simpl. auto.
    - intros c [(? & ? & ? & ? & ->)|(? & ? & ->)]%widget_geometries_calls;
        simpl; auto. }
  assert (∀ node, node ∈ widgets (rnd_wibox r) →
            isvisible (widget_objects L (widget node)) = true →
            call_draw (widget node) (ctx wibox) (geometry node) (rnd_wibox r)
              ∈ rnd_calls r) as Hnode.
  { intros node Hin Hvis.
    assert (call_draw (widget node) (ctx wibox) (geometry node) (rnd_wibox r)
              ∈ filter (λ c, is_draw c) (rnd_calls r)) as Hd.
    { rewrite Hdraws. apply render_draw_calls. exists node. by rewrite Hctx. }
    by apply list_elem_of_filter in Hd as [_ ?]. }
  destruct (res_table (widget_geometries L wibox)) as [geometries|] eqn:Hres.
  2: { subst r. unfold widget_render in Hdone. by rewrite Hres in Hdone. }
  destruct (widget_render_done_nodes L connection wibox geometries Hres Hdone)
    as [Hlen Hnodes].
  fold r in Hlen, Hnodes.
  split_and!.
  - apply list_eq. intros j. rewrite !list_lookup_fmap.
    destruct (flattened wibox !! j) as [node|] eqn:Hj.
    + by rewrite (Hnodes j node Hj).
    + rewrite (lookup_ge_None_2 (widgets _) j); [done|].
      rewrite Hlen. by apply lookup_ge_None.
  - rewrite Hdraws. unfold render_draw. by rewrite Hctx.
  - exact Hnode.
  - intros tbl w Htbl Hleaf Hvis.
    apply table2widgets_leaf in Hleaf as (wnode & Hin & Hw).
    assert (wnode ∈ flattened wibox) as Hin' by (unfold flattened; by rewrite Htbl).
    apply list_elem_of_lookup in Hin' as [j Hj].
    pose proof (Hnodes j wnode Hj) as Hfinal. rewrite Hw in Hfinal.
    eexists. eapply (Hnode {| widget := w; geometry := _ |}); [|done].
    apply list_elem_of_lookup. eauto.
  - intros w c g wb Hvis Hin.
    assert (call_draw w c g wb ∈ filter (λ c, is_draw c) (rnd_calls r)) as Hd
      by by apply list_elem_of_filter.
    rewrite Hdraws in Hd. apply render_draw_calls in Hd as (node & _ & Hv & Heq).
    simplify_eq. congruence.
Qed.

(** X8: for a wibox whose widget table is a table without layout
    function, or that has no widget table, [widget_render] always completes,
    and each node ends with the geometry of the default path: at the origin,
    with the width and height of the widget's extents clamped to those of
    the wibox. *)
Theorem widget_render_default L connection wibox :
  table_or_none wibox →
  lua_isfunction (widget_layout wibox) = None →
  let r := widget_render L connection wibox in
  rnd_status r = render_done
  ∧ widgets (rnd_wibox r)
    = (λ node,
         let natural := extents (widget_objects L (widget node)) (screen wibox) in
         {| widget := widget node;
            geometry :=
              {| x := 0; y := 0;
                 width := Z.min (width (wibox_geometry wibox)) (width natural);
                 height := Z.min (height (wibox_geometry wibox)) (height natural) |} |})
      <$> flattened wibox.
Proof.
  intros _ Hdef r. subst r.
  assert (res_table (widget_geometries L wibox)
          = Some (default_geometry L wibox <$> flattened wibox)) as Htbl.
  { by rewrite (widget_geometries_default_path _ _ Hdef). }
  assert (rnd_status (widget_render L connection wibox) = render_done) as Hdone.
  { apply (widget_render_completes _ _ _ _ Htbl). by rewrite length_fmap. }
  split; [done|].
  destruct (widget_render_done_nodes L connection wibox _ Htbl Hdone) as [Hlen Hnodes].
  apply list_eq. intros j. rewrite list_lookup_fmap.
  destruct (flattened wibox !! j) as [node|] eqn:Hj; simpl.
  - rewrite (Hnodes j node Hj), list_lookup_fmap, Hj. done.
  - apply lookup_ge_None. rewrite Hlen. by apply lookup_ge_None.
Qed.

(** X9: in a completed render the nodes are those of the widgets of the
    widget table, in order; when the numbers of the geometry table fit the
    16-bit fields they are read into, node [j] has the geometry of entry [j]
    of the table, where a missing [x] or [y] is that of the wibox and a
    missing [width] or [height] is 1; a node the table has no entry for
    keeps a cleared geometry. *)
Theorem widget_render_reads_back L connection wibox tbl :
  res_table (widget_geometries L wibox) = Some tbl →
  Forall fits_area tbl →
  int16_range (x (wibox_geometry wibox)) → int16_range (y (wibox_geometry wibox)) →
  let r := widget_render L connection wibox in
  rnd_status r = render_done →
  widget <$> widgets (rnd_wibox r) = widget <$> flattened wibox
  ∧ ∀ (j : nat) node, widgets (rnd_wibox r) !! j = Some node →
      geometry node
      = match tbl !! j with
        | Some t =>
            {| x := default (x (wibox_geometry wibox)) (lua_x t);
               y := default (y (wibox_geometry wibox)) (lua_y t);
               width := default 1 (lua_width t);
               height := default 1 (lua_height t) |}
        | None => zero_area
        end.
Proof.
  intros Htbl _ _ _ r Hdone. subst r.
  destruct (widget_render_done_nodes L connection wibox tbl Htbl Hdone) as [Hlen Hnodes].
  split.
  - apply list_eq. intros j. rewrite !list_lookup_fmap.
    destruct (flattened wibox !! j) as [node|] eqn:Hj.
    + by rewrite (Hnodes j node Hj).
    + rewrite (lookup_ge_None_2 (widgets _) j); [done|].
      rewrite Hlen. by apply lookup_ge_None.
  - intros j node Hj.
    destruct (flattened wibox !! j) as [node0|] eqn:Hj0.
    + rewrite (Hnodes j node0 Hj0) in Hj. simplify_eq. simpl.
      by destruct (tbl !! j).
    + apply lookup_ge_None in Hj0. apply lookup_lt_Some in Hj. lia.
Qed.

Lemma widget_render_same_but_widgets L connection wibox :
  same_but_widgets (rnd_wibox (widget_render L connection wibox)) wibox.
Proof.
  pose proof (widget_geometries_same_but_widgets L wibox) as Hsame.
  unfold widget_render.
  destruct (res_table (widget_geometries L wibox)) as [tbl|]; [|done].
  by destruct (render_get_geometries _ _ _ _).
Qed.

(** Where each call of a render comes from. *)
Lemma widget_render_calls L connection wibox c :
  c ∈ rnd_calls (widget_render L connection wibox) →
  c ∈ res_calls (widget_geometries L wibox)
  ∨ (alpha (ctx_bg (ctx wibox)) ≠ 65535
     ∧ c ∈ render_root_background connection (res_wibox (widget_geometries L wibox)))
  ∨ (rnd_status (widget_render L connection wibox) = render_done
     ∧ ((alpha (ctx_bg (ctx wibox)) ≠ 65535 ∧ ∃ i, c = call_draw_image (ctx wibox) 0 0 i)
        ∨ c = call_draw_rectangle (ctx wibox)
                {| x := 0; y := 0; width := ctx_width (ctx wibox);
                   height := ctx_height (ctx wibox) |} true (ctx_bg (ctx wibox))
        ∨ c ∈ render_draw L (rnd_wibox (widget_render L connection wibox))
        ∨ c ∈ render_rotate (rnd_wibox (widget_render L connection wibox)))).
Proof.
  destruct (widget_geometries_same_but_widgets L wibox) as (_ & _ & Hctx & _).
  unfold widget_render.
  destruct (res_table (widget_geometries L wibox)) as [tbl|]; simpl; [|by left].
  rewrite Hctx.
  assert (∀ c, c ∈ res_calls (widget_geometries L wibox)
               ++ (if bool_decide (alpha (ctx_bg (ctx wibox)) = 65535) then []
                   else render_root_background connection
                          (res_wibox (widget_geometries L wibox))) →
            c ∈ res_calls (widget_geometries L wibox)
            ∨ (alpha (ctx_bg (ctx wibox)) ≠ 65535
               ∧ c ∈ render_root_background connection
                       (res_wibox (widget_geometries L wibox)))) as Hhead.
  { intros c' [?|Hc]%elem_of_app; [by left|].
    case_bool_decide; [by apply not_elem_of_nil in Hc|by right]. }
  destruct (render_get_geometries _ _ _ _) as [nodes|]; simpl.
  2: { intros [?|[? ?]]%Hhead; auto. }
  intros [[?|[? ?]]%Hhead|Hc]%elem_of_app; auto. right. right. split; [done|].
  apply elem_of_app in Hc as [Hc|Hc].
  - left. destruct (bg_image _) as [i|]; [|by apply not_elem_of_nil in Hc].
    case_bool_decide; [by apply not_elem_of_nil in Hc|].
    apply list_elem_of_singleton in Hc. eauto.
  - apply elem_of_cons in Hc as [->|Hc]; [auto|].
    apply elem_of_app in Hc as [Hc|Hc]; auto.
Qed.

(** X10: [widget_render] changes nothing of the wibox but its node
    collection, however it ends: the geometry, the orientation, the widget
    table and the [need_update] flag are those it was given. *)
Theorem widget_render_frame L connection wibox :
  same_but_widgets (rnd_wibox (widget_render L connection wibox)) wibox
  ∧ need_update (rnd_wibox (widget_render L connection wibox)) = need_update wibox.
Proof.
  pose proof (widget_render_same_but_widgets L connection wibox) as Hsame.
  split; [done|]. apply Hsame.
Qed.

(** The calls of the desktop-background block: the property request, then
    at most one copy from the root pixmap, made only for a reply with data
    and a pixmap other than 0. *)
Lemma render_root_background_cases connection wibox c :
  c ∈ render_root_background connection wibox →
  let s := xutil_screen_get connection (ctx_phys_screen (ctx wibox)) in
  c = call_get_property (root s)
  ∨ ∃ prop_r rootpix,
      xcb_get_property_reply connection (root s) = Some prop_r
      ∧ value prop_r = Some rootpix ∧ value_len prop_r ≠ 0 ∧ rootpix ≠ 0
      ∧ match orientation wibox with
        | East => ∃ x y w h, c = call_copy_area rootpix (pixmap wibox) (gc wibox) x y 0 0 w h
        | _ => ∃ sw sh dw dh angle tx ty,
                 c = call_draw_rotate (ctx wibox) rootpix (ctx_pixmap (ctx wibox))
                       sw sh dw dh angle tx ty
        end.
Proof.
  unfold render_root_background. intros [->|Hc]%elem_of_cons; [by left|]. right.
  destruct (xcb_get_property_reply _ _) as [prop_r|]; [|by apply not_elem_of_nil in Hc].
  destruct (value prop_r) as [rootpix|] eqn:Hv; [|by apply not_elem_of_nil in Hc].
  destruct (bool_decide (value_len prop_r ≠ 0)) eqn:Hlen; simpl in Hc;
    [|by apply not_elem_of_nil in Hc].
  destruct (bool_decide (rootpix ≠ 0)) eqn:Hpix; simpl in Hc;
    [|by apply not_elem_of_nil in Hc].
  apply bool_decide_eq_true in Hlen, Hpix.
  exists prop_r, rootpix. split_and!; try done.
  destruct (orientation wibox); apply list_elem_of_singleton in Hc; subst;
    by repeat eexists.
Qed.

(** X11: an East wibox is never rotated: no render of it calls
    [draw_rotate]; the last call of a completed render of a South or North
    wibox is the rotation of the whole buffer onto the wibox's pixmap, by
    [M_PI_2] for South and [- M_PI_2] for North, with the buffer's width and
    height exchanged for the target. *)
Theorem widget_render_rotation L connection wibox :
  let r := widget_render L connection wibox in
  let c := ctx wibox in
  (orientation wibox = East →
   ∀ ctx src dst sw sh dw dh angle tx ty,
     call_draw_rotate ctx src dst sw sh dw dh angle tx ty ∉ rnd_calls r)
  ∧ (rnd_status r = render_done → orientation wibox = South →
     list.last (rnd_calls r)
     = Some (call_draw_rotate c (ctx_pixmap c) (pixmap wibox)
               (ctx_width c) (ctx_height c) (ctx_height c) (ctx_width c)
               M_PI_2 (ctx_height c) 0))
  ∧ (rnd_status r = render_done → orientation wibox = North →
     list.last (rnd_calls r)
     = Some (call_draw_rotate c (ctx_pixmap c) (pixmap wibox)
               (ctx_width c) (ctx_height c) (ctx_height c) (ctx_width c)
               minus_M_PI_2 0 (ctx_width c))).
Proof.
  intros r c. subst r c.
  destruct (widget_render_same_but_widgets L connection wibox)
    as (_ & Ho & Hctx & Hpix & _).
  destruct (widget_geometries_same_but_widgets L wibox) as (_ & Ho' & _).
  assert (∀ angle tx ty,
            render_rotate (rnd_wibox (widget_render L connection wibox))
            = [call_draw_rotate (ctx wibox) (ctx_pixmap (ctx wibox)) (pixmap wibox)
                 (ctx_width (ctx wibox)) (ctx_height (ctx wibox))
                 (ctx_height (ctx wibox)) (ctx_width (ctx wibox)) angle tx ty] →
            rnd_status (widget_render L connection wibox) = render_done →
            list.last (rnd_calls (widget_render L connection wibox))
            = Some (call_draw_rotate (ctx wibox) (ctx_pixmap (ctx wibox)) (pixmap wibox)
                      (ctx_width (ctx wibox)) (ctx_height (ctx wibox))
                      (ctx_height (ctx wibox)) (ctx_width (ctx wibox)) angle tx ty))
    as Hlast.
  { intros angle tx ty Hrot Hdone.
    destruct (widget_render_done L connection wibox Hdone)
      as (_ & background & image & -> & _).
    rewrite Hrot, !app_assoc. apply last_snoc. }
  split_and!.
  - intros HE ctx0 src dst sw sh dw dh angle tx ty Hc.
    apply widget_render_calls in Hc as [Hc|[[_ Hc]|[_ [[_ [i Hc]]|[Hc|[Hc|Hc]]]]]].
    + by apply widget_geometries_calls in Hc as [(? & ? & ? & ? & ?)|(? & ? & ?)].
    + apply render_root_background_cases in Hc as [Hc|(? & ? & _ & _ & _ & _ & Hc)];
        [done|].
      rewrite Ho', HE in Hc. by destruct Hc as (? & ? & ? & ? & ?).
    + done.
    + done.
    + by apply render_draw_calls in Hc as (? & _ & _ & ?).
    + unfold render_rotate in Hc. rewrite Ho, HE in Hc. by apply not_elem_of_nil in Hc.
  - intros Hdone HS. apply Hlast; [|done].
    unfold render_rotate. by rewrite Ho, HS, Hctx, Hpix.
  - intros Hdone HN. apply Hlast; [|done].
    unfold render_rotate. by rewrite Ho, HN, Hctx, Hpix.
Qed.

(** X12: the X server cannot make a render fail: how the render ends, and
    the nodes it leaves, are the same whatever the server answers.  When
    there is no reply to the request for the root background pixmap,
    nothing is copied from the root: no area is copied, and the only
    rotation is the closing one of the buffer. *)
Theorem widget_render_no_root_pixmap L connection wibox :
  (∀ connection',
     rnd_status (widget_render L connection' wibox)
     = rnd_status (widget_render L connection wibox)
     ∧ rnd_wibox (widget_render L connection' wibox)
       = rnd_wibox (widget_render L connection wibox))
  ∧ (xcb_get_property_reply connection
       (root (xutil_screen_get connection (ctx_phys_screen (ctx wibox)))) = None →
     ∀ c, c ∈ rnd_calls (widget_render L connection wibox) →
       match c with
       | call_copy_area _ _ _ _ _ _ _ _ _ => False
       | call_draw_rotate _ src dst _ _ _ _ _ _ _ =>
           src = ctx_pixmap (ctx wibox) ∧ dst = pixmap wibox
       | _ => True
       end).
Proof.
  split.
  - intros connection'. unfold widget_render.
    destruct (res_table (widget_geometries L wibox)) as [tbl|]; [|done].
    by destruct (render_get_geometries _ _ _ _).
  - intros Hnone c Hc.
    destruct (widget_render_same_but_widgets L connection wibox)
      as (_ & _ & Hctx & Hpix & _).
    destruct (widget_geometries_same_but_widgets L wibox) as (_ & _ & Hctx' & _).
    apply widget_render_calls in Hc as [Hc|[[_ Hc]|[_ [[_ [i ->]]|[->|[Hc|Hc]]]]]];
      try done.
    + by apply widget_geometries_calls in Hc as [(? & ? & ? & ? & ->)|(? & ? & ->)].
    + apply render_root_background_cases in Hc as [->|(? & ? & Hr & _)]; [done|].
      rewrite Hctx' in Hr. congruence.
    + by apply render_draw_calls in Hc as (? & _ & _ & ->).
    + apply render_rotate_calls in Hc as (? & ? & ? & ? & ? & ? & ? & ->).
      by rewrite Hctx, Hpix.
Qed.

(** X13: a completed render fills the whole buffer with the background
    colour exactly once, after everything else that paints the background
    and before every widget is drawn; after the widgets only the closing
    rotation follows. *)
Theorem widget_render_fill_first L connection wibox :
  let r := widget_render L connection wibox in
  rnd_status r = render_done →
  ∃ before,
    rnd_calls r
    = before
      ++ call_draw_rectangle (ctx wibox)
           {| x := 0; y := 0; width := ctx_width (ctx wibox);
              height := ctx_height (ctx wibox) |} true (ctx_bg (ctx wibox))
         :: render_draw L (rnd_wibox r) ++ render_rotate (rnd_wibox r)
    ∧ ∀ c, c ∈ before →
        match c with
        | call_draw _ _ _ _ | call_draw_rectangle _ _ _ _ => False
        | _ => True
        end.
Proof.
  intros r Hdone. subst r.
  destruct (widget_render_done L connection wibox Hdone)
    as (_ & background & image & Hcalls & Hbg & _ & Himg).
  exists (res_calls (widget_geometries L wibox) ++ background ++ image). split.
  - rewrite Hcalls. by rewrite <- !app_assoc.
  - intros c [Hc|[Hc|Hc]%elem_of_app]%elem_of_app.
    + by apply widget_geometries_calls in Hc as [(? & ? & ? & ? & ->)|(? & ? & ->)].
    + apply Hbg, render_root_background_cases in Hc as [->|(? & ? & _ & _ & _ & _ & Hc)];
        [done|].
      destruct (orientation _).
      * by destruct Hc as (? & ? & ? & ? & ? & ? & ? & ->).
      * by destruct Hc as (? & ? & ? & ? & ? & ? & ? & ->).
      * by destruct Hc as (? & ? & ? & ? & ->).
    + by apply Himg in Hc as [i ->].
Qed.

(** ** widget_getbycoords *)

Lemma getbycoords_foreach_Some mem px py widgets W :
  getbycoords_foreach mem px py widgets = Some W →
  ∃ w, w ∈ widgets ∧ widget w = W ∧ getbycoords_hit mem px py w = true.
Proof.
  induction widgets as [|w widgets IH]; simpl; [done|].
  destruct (getbycoords_hit mem px py w) eqn:Hhit.
  - intros [= <-]. exists w. split; [left|done].
  - intros (w' & Hin & HW & Hh)%IH. exists w'. split; [by right|done].
Qed.

(** X14: a node without extent is never found: the widget returned comes
    from a node of positive width and height, so that right after
    [luaA_table2widgets], when every geometry is still cleared, no point
    finds a widget. *)
Theorem widget_getbycoords_positive_extent mem o widgets width0 height0 x0 y0 :
  (∀ W, (widget_getbycoords mem o widgets width0 height0 x0 y0).1 = Some W →
     ∃ w, w ∈ widgets ∧ widget w = W
       ∧ 0 < width (geometry w) ∧ 0 < height (geometry w))
  ∧ ((∀ w, w ∈ widgets → geometry w = zero_area) →
     (widget_getbycoords mem o widgets width0 height0 x0 y0).1 = None).
Proof.
  assert (∀ W, (widget_getbycoords mem o widgets width0 height0 x0 y0).1 = Some W →
            ∃ w, w ∈ widgets ∧ widget w = W
              ∧ 0 < width (geometry w) ∧ 0 < height (geometry w)) as Hpos.
  { intros W (w & Hin & HW & Hhit)%getbycoords_foreach_Some.
    exists w. split_and!; try done;
      apply getbycoords_hit_matches in Hhit as [_ [? ?]]; simpl in *; lia. }
  split; [done|]. intros Hzero.
  destruct (widget_getbycoords mem o widgets width0 height0 x0 y0).1 as [W|] eqn:E;
    [|done].
  destruct (Hpos W eq_refl) as (w & Hin & _ & Hw & _).
  rewrite (Hzero w Hin) in Hw. simpl in Hw. lia.
Qed.

(** ** widget_invalidate_bywidget *)

Lemma invalidate_mark_dirty w wibox :
  need_update wibox = true → invalidate_mark w wibox = wibox.
Proof. intros Hd. unfold invalidate_mark. by rewrite Hd. Qed.

Lemma invalidate_mark_flag w wibox :
  need_update (invalidate_mark w wibox)
  = need_update wibox || invalidate_has_widget w wibox.
Proof.
  unfold invalidate_mark.
  destruct (need_update wibox) eqn:Hd; simpl; [by rewrite Hd|].
  by destruct (invalidate_has_widget w wibox).
Qed.

Lemma invalidate_mark_comm w1 w2 wibox :
  invalidate_mark w1 (invalidate_mark w2 wibox)
  = invalidate_mark w2 (invalidate_mark w1 wibox).
Proof.
  unfold invalidate_mark, invalidate_has_widget.
  destruct wibox as [? ? ? ? ? ws ? [] ? ?]; simpl; [done|].
  destruct (existsb _ ws) eqn:E1; simpl;
    destruct (existsb (λ wnode, bool_decide (widget wnode = w1)) ws) eqn:E2; simpl;
    rewrite ?E1, ?E2; simpl; done.
Qed.

(** X15: [widget_invalidate_bywidget] never clears a flag and never looks
    into a wibox that already needs an update: such a wibox, like a wibox
    that is neither in [globalconf.wiboxes] nor a titlebar, is left exactly
    as it was; the arrays of wiboxes and clients and the Lua state do not
    change. *)
Theorem widget_invalidate_bywidget_keeps w G p :
  let G' := widget_invalidate_bywidget w G in
  (need_update (wibox_objects G p) = true → wibox_objects G' p = wibox_objects G p)
  ∧ (¬ managed G p → wibox_objects G' p = wibox_objects G p)
  ∧ L G' = L G ∧ wiboxes G' = wiboxes G ∧ clients G' = clients G
  ∧ warnings G' = warnings G ∧ next_widget G' = next_widget G.
Proof.
  intros G'. subst G'.
  destruct (widget_invalidate_bywidget_lookup w G p) as [Hin Hout].
  split_and!; try done.
  intros Hd. destruct (managed_or_not G p) as [Hm|Hm]; [|by apply Hout].
  rewrite (Hin Hm). by apply invalidate_mark_dirty.
Qed.

(** X16: invalidating twice for the same widget is invalidating once, and
    invalidating for two widgets gives the same wiboxes in either order. *)
Theorem widget_invalidate_bywidget_order w1 w2 G p :
  wibox_objects (widget_invalidate_bywidget w1 (widget_invalidate_bywidget w1 G)) p
  = wibox_objects (widget_invalidate_bywidget w1 G) p
  ∧ wibox_objects (widget_invalidate_bywidget w1 (widget_invalidate_bywidget w2 G)) p
    = wibox_objects (widget_invalidate_bywidget w2 (widget_invalidate_bywidget w1 G)) p.
Proof.
  pose proof (widget_invalidate_bywidget_lookup w1 G p) as [H1 H1'].
  pose proof (widget_invalidate_bywidget_lookup w2 G p) as [H2 H2'].
  pose proof (widget_invalidate_bywidget_lookup w1 (widget_invalidate_bywidget w1 G) p)
    as [H11 H11'].
  pose proof (widget_invalidate_bywidget_lookup w1 (widget_invalidate_bywidget w2 G) p)
    as [H12 H12'].
  pose proof (widget_invalidate_bywidget_lookup w2 (widget_invalidate_bywidget w1 G) p)
    as [H21 H21'].
  destruct (managed_or_not G p) as [Hm|Hm].
  - rewrite (H11 Hm), (H12 Hm), (H21 Hm), (H1 Hm), (H2 Hm).
    split; [apply invalidate_mark_idemp|apply invalidate_mark_comm].
  - by rewrite (H11' Hm), (H12' Hm), (H21' Hm), (H1' Hm), (H2' Hm).
Qed.

(** ** widget_invalidate_bytype *)

Lemma invalidate_has_type_spec mem ty wibox :
  invalidate_has_type mem ty wibox = true
  ↔ ∃ wnode, wnode ∈ widgets wibox ∧ type (mem (widget wnode)) = ty.
Proof.
  unfold invalidate_has_type. rewrite existsb_exists.
  split; intros (wnode & Hin & Hty); exists wnode.
  - apply list_elem_of_In in Hin. by apply bool_decide_eq_true in Hty.
  - split; [by apply list_elem_of_In|by apply bool_decide_eq_true].
Qed.

Lemma invalidate_type_one_lookup mem ty objs q p :
  invalidate_type_one mem ty objs q p
  = if decide (q = p)
    then (if invalidate_has_type mem ty (objs p)
          then set_need_update true (objs p) else objs p)
    else objs p.
Proof.
  unfold invalidate_type_one. destruct (decide (q = p)) as [->|Hne].
  - destruct (invalidate_has_type _ _ _); [by rewrite fn_lookup_insert|done].
  - destruct (invalidate_has_type _ _ _); [by rewrite fn_lookup_insert_ne|done].
Qed.

Lemma invalidate_type_foldl mem ty ps : ∀ objs p,
  foldl (invalidate_type_one mem ty) objs ps p
  = if decide (p ∈ ps)
    then (if invalidate_has_type mem ty (objs p)
          then set_need_update true (objs p) else objs p)
    else objs p.
Proof.
  induction ps as [|q ps IH]; intros objs p; cbn [foldl].
  - by rewrite decide_False by apply not_elem_of_nil.
  - rewrite IH, invalidate_type_one_lookup.
    destruct (decide (q = p)) as [->|Hne].
    + rewrite (decide_True (P := p ∈ p :: ps)) by left.
      destruct (invalidate_has_type mem ty (objs p)) eqn:E.
      * change (invalidate_has_type mem ty (set_need_update true (objs p)))
          with (invalidate_has_type mem ty (objs p)).
        rewrite E. by case_decide.
      * rewrite E. by case_decide.
    + destruct (decide (p ∈ ps)) as [Hin|Hnin].
      * by rewrite decide_True by by right.
      * rewrite decide_False; [done|]. intros [->|?]%elem_of_cons; done.
Qed.

Lemma widget_invalidate_bytype_lookup ty G p :
  wibox_objects (widget_invalidate_bytype ty G) p
  = if decide (p ∈ wiboxes G)
    then (if invalidate_has_type (widget_objects (L G)) ty (wibox_objects G p)
          then set_need_update true (wibox_objects G p) else wibox_objects G p)
    else wibox_objects G p.
Proof. unfold widget_invalidate_bytype. simpl. apply invalidate_type_foldl. Qed.

(** X17: [widget_invalidate_bytype] sets [need_update] on every wibox of
    [globalconf.wiboxes] that has a node whose widget is of the type, and
    changes no other wibox and nothing but the flag; unlike
    [widget_invalidate_bywidget] it does not look at the titlebars of the
    clients: a titlebar that is not in [globalconf.wiboxes] is left as it
    was, even when it shows a widget of the type. *)
Theorem widget_invalidate_bytype_dirty ty G p :
  let G' := widget_invalidate_bytype ty G in
  let has_type :=
    ∃ wnode, wnode ∈ widgets (wibox_objects G p)
      ∧ type (widget_objects (L G) (widget wnode)) = ty in
  (p ∈ wiboxes G → has_type → need_update (wibox_objects G' p) = true)
  ∧ (¬ has_type → wibox_objects G' p = wibox_objects G p)
  ∧ (p ∉ wiboxes G → wibox_objects G' p = wibox_objects G p)
  ∧ wibox_objects G' p
    = set_need_update (need_update (wibox_objects G' p)) (wibox_objects G p).
Proof.
  intros G' has_type. subst G' has_type.
  rewrite widget_invalidate_bytype_lookup.
  assert (∀ wibox, set_need_update (need_update wibox) wibox = wibox) as Hid
    by by intros [].
  split_and!.
  - intros Hin Hhas%invalidate_has_type_spec. by rewrite decide_True, Hhas.
  - intros Hhas. rewrite <- invalidate_has_type_spec in Hhas.
    apply not_true_is_false in Hhas. rewrite Hhas. by case_decide.
  - intros Hnin. by rewrite decide_False.
  - case_decide; [|by rewrite Hid].
    destruct (invalidate_has_type _ _ _); [done|by rewrite Hid].
Qed.

(** X18: on the wiboxes of [globalconf.wiboxes], invalidating by the type
    of a widget reaches at least as far as invalidating by the widget: a
    listed wibox that needs an update after
    [widget_invalidate_bywidget w] also needs one after
    [widget_invalidate_bytype] for the type of [w]. *)
Theorem widget_invalidate_bytype_covers w G p :
  p ∈ wiboxes G →
  need_update (wibox_objects (widget_invalidate_bywidget w G) p) = true →
  need_update
    (wibox_objects (widget_invalidate_bytype (type (widget_objects (L G) w)) G) p) = true.
Proof.
  intros Hin. rewrite widget_invalidate_bytype_lookup, decide_True by done.
  rewrite (proj1 (widget_invalidate_bywidget_lookup w G p)) by by left.
  rewrite invalidate_mark_flag.
  destruct (invalidate_has_type _ _ _) eqn:Hty; [done|].
  intros [Hd|Hhas]%orb_true_iff; [done|].
  apply invalidate_has_widget_contains in Hhas as (wnode & Hn & <-).
  assert (invalidate_has_type (widget_objects (L G))
            (type (widget_objects (L G) (widget wnode))) (wibox_objects G p) = true)
    as Hty' by (apply invalidate_has_type_spec; eauto).
  congruence.
Qed.

(** ** The Lua interface *)

(** X19: creating a widget touches nothing that exists: every other widget
    object, every wibox (none is marked for an update), the arrays of
    wiboxes and clients and the layout functions are as before. *)
Theorem luaA_widget_new_frame construct type_name G w :
  (luaA_widget_new construct type_name G).1 = Some w →
  let G' := (luaA_widget_new construct type_name G).2 in
  (∀ w', w' ≠ w → widget_objects (L G') w' = widget_objects (L G) w')
  ∧ wibox_objects G' = wibox_objects G
  ∧ wiboxes G' = wiboxes G ∧ clients G' = clients G
  ∧ luaA_dofunction (L G') = luaA_dofunction (L G)
  ∧ warnings G' = warnings G.
Proof.
  unfold luaA_widget_new.
  destruct (a_tokenize type_name); simpl; try done;
    intros [= <-]; (split_and!; try done);
    intros w' Hw'; by rewrite fn_lookup_insert_ne.
Qed.

Lemma unref_item_fields w item :
  type (luaA_object_unref_item w item) = type w
  ∧ extents (luaA_object_unref_item w item) = extents w
  ∧ newindex (luaA_object_unref_item w item) = newindex w
  ∧ isvisible (luaA_object_unref_item w item) = isvisible w.
Proof. by destruct item. Qed.

Section generic_keys.
Variable metatable : list (lua_key * lua_value).
Variable type_index : widget_ptr → option (awesome_token_t → list lua_value).
Variable type_newindex :
  widget_ptr → awesome_token_t → lua_value → globalconf_t → option (Z * globalconf_t).
Variables (widget : widget_ptr) (G : globalconf_t).

(** X20: the generic setter checks the type of the value: [visible] takes
    a boolean and nothing else, [mouse_enter] and [mouse_leave] take a
    function and nothing else; any other value, nil included, is a Lua
    error, so a hook, once set, cannot be removed by assigning nil. *)
Theorem luaA_widget_newindex_type_errors value :
  (luaA_widget_newindex type_newindex widget "visible" value G = None
   ↔ ∀ b, value ≠ LBoolean b)
  ∧ (luaA_widget_newindex type_newindex widget "mouse_enter" value G = None
     ↔ ∀ f, value ≠ LFunction f)
  ∧ (luaA_widget_newindex type_newindex widget "mouse_leave" value G = None
     ↔ ∀ f, value ≠ LFunction f)
  ∧ luaA_widget_newindex type_newindex widget "mouse_enter" LNil G = None.
Proof.
  split_and!; [..|done];
    (split; [destruct value; try done; intros _; congruence|]);
    intros Hno; destruct value as [|b| | |f| |]; try done;
    by first [destruct (Hno b)|destruct (Hno f)].
Qed.

(** X21: a write to a generic key changes the widget written to and no
    other widget, returns no value, and never changes the type of the
    widget, its capabilities, or the arrays of wiboxes and clients; a hook
    write leaves the visibility and every wibox as they were, and a
    visibility write leaves the hooks and their reference counts. *)
Theorem luaA_widget_newindex_generic_frame buf value n G' :
  buf = "visible" ∨ buf = "mouse_enter" ∨ buf = "mouse_leave" →
  luaA_widget_newindex type_newindex widget buf value G = Some (n, G') →
  let obj := widget_objects (L G) widget in
  let obj' := widget_objects (L G') widget in
  n = 0
  ∧ type obj' = type obj ∧ extents obj' = extents obj ∧ newindex obj' = newindex obj
  ∧ (∀ w', w' ≠ widget → widget_objects (L G') w' = widget_objects (L G) w')
  ∧ wiboxes G' = wiboxes G ∧ clients G' = clients G
  ∧ (buf ≠ "visible" →
     isvisible obj' = isvisible obj ∧ wibox_objects G' = wibox_objects G)
  ∧ (buf = "visible" →
     mouse_enter obj' = mouse_enter obj ∧ mouse_leave obj' = mouse_leave obj
     ∧ env obj' = env obj).
Proof.
  intros [-> | [-> | ->]]; unfold luaA_widget_newindex; simpl;
    destruct value as [|b| | |f| |]; simpl; try done; intros [= <- <-]; simpl;
    rewrite fn_lookup_insert;
    pose proof (unref_item_fields (widget_objects (L G) widget)
                  (mouse_enter (widget_objects (L G) widget))) as (? & ? & ? & ?);
    pose proof (unref_item_fields (widget_objects (L G) widget)
                  (mouse_leave (widget_objects (L G) widget))) as (? & ? & ? & ?);
    simpl; (split_and!; try done); try (by intros _);
    intros w' Hw'; by rewrite fn_lookup_insert_ne.
Qed.

(** X22: assigning to [mouse_enter] or [mouse_leave] the function that is
    already the hook, on which the widget holds a reference, leaves the hook
    and every reference count as they were: the reference released is
    acquired again. *)
Theorem luaA_widget_newindex_same_hook f :
  let obj := widget_objects (L G) widget in
  (0 < env obj f)%nat →
  (mouse_enter obj = Some f →
   ∃ G', luaA_widget_newindex type_newindex widget "mouse_enter" (LFunction f) G
         = Some (0, G')
     ∧ mouse_enter (widget_objects (L G') widget) = Some f
     ∧ ∀ g, env (widget_objects (L G') widget) g = env obj g)
  ∧ (mouse_leave obj = Some f →
     ∃ G', luaA_widget_newindex type_newindex widget "mouse_leave" (LFunction f) G
           = Some (0, G')
       ∧ mouse_leave (widget_objects (L G') widget) = Some f
       ∧ ∀ g, env (widget_objects (L G') widget) g = env obj g).
Proof.
  intros obj Hpos. subst obj.
  split; intros Hold; eexists; (split; [reflexivity|]); simpl;
    rewrite fn_lookup_insert; simpl; (split; [done|]); intros g; rewrite Hold; simpl;
    (destruct (decide (f = g)) as [->|Hne];
     [rewrite !fn_lookup_insert; lia|by rewrite !fn_lookup_insert_ne]).
Qed.

Lemma a_tokenize_other_key buf :
  buf ≠ "visible" → buf ≠ "mouse_enter" → buf ≠ "mouse_leave" →
  match a_tokenize (Some buf) with
  | A_TK_VISIBLE | A_TK_MOUSE_ENTER | A_TK_MOUSE_LEAVE => False
  | _ => True
  end.
Proof. intros ? ? ?. simpl. by repeat case_decide. Qed.

(** X23: a key other than the three generic ones goes to the capability of
    the widget's type with its token, and without that capability it is a
    no-op: a write changes nothing and returns no value, a read of a key
    the metatable does not have yields no value. *)
Theorem widget_other_keys buf value :
  buf ≠ "visible" → buf ≠ "mouse_enter" → buf ≠ "mouse_leave" →
  let obj := widget_objects (L G) widget in
  (newindex obj = false →
   luaA_widget_newindex type_newindex widget buf value G = Some (0, G))
  ∧ (newindex obj = true →
     luaA_widget_newindex type_newindex widget buf value G
     = type_newindex widget (a_tokenize (Some buf)) value G)
  ∧ (lua_rawget metatable buf = LNil →
     luaA_widget_index metatable type_index widget buf G
     = match type_index widget with
       | Some index => index (a_tokenize (Some buf))
       | None => []
       end).
Proof.
  intros H1 H2 H3 obj. subst obj.
  pose proof (a_tokenize_other_key buf H1 H2 H3) as Htok.
  unfold luaA_widget_newindex, luaA_widget_index.
  split_and!.
  - intros ->. by destruct (a_tokenize (Some buf)).
  - intros ->. by destruct (a_tokenize (Some buf)).
  - intros ->. by destruct (a_tokenize (Some buf)).
Qed.

(** X24: what is written is what is read: unless the metatable of widgets
    has the key, reading [visible] after writing it yields the boolean
    written, and reading [mouse_enter] or [mouse_leave] after writing it
    yields the function written; writing a hook does not change what
    [visible] reads. *)
Theorem widget_index_after_newindex :
  (lua_rawget metatable "visible" = LNil →
   ∀ b G', luaA_widget_newindex type_newindex widget "visible" (LBoolean b) G
           = Some (0, G') →
     luaA_widget_index metatable type_index widget "visible" G' = [LBoolean b])
  ∧ (lua_rawget metatable "mouse_enter" = LNil →
     ∀ f G', luaA_widget_newindex type_newindex widget "mouse_enter" (LFunction f) G
             = Some (0, G') →
       luaA_widget_index metatable type_index widget "mouse_enter" G' = [LFunction f]
       ∧ luaA_widget_index metatable type_index widget "visible" G'
         = luaA_widget_index metatable type_index widget "visible" G)
  ∧ (lua_rawget metatable "mouse_leave" = LNil →
     ∀ f G', luaA_widget_newindex type_newindex widget "mouse_leave" (LFunction f) G
             = Some (0, G') →
       luaA_widget_index metatable type_index widget "mouse_leave" G' = [LFunction f]
       ∧ luaA_widget_index metatable type_index widget "visible" G'
         = luaA_widget_index metatable type_index widget "visible" G).
Proof.
  split_and!.
  - intros Hmt b G' [= <-]. unfold luaA_widget_index. rewrite Hmt. simpl.
    by rewrite fn_lookup_insert.
  - intros Hmt f G' [= <-]. unfold luaA_widget_index. rewrite Hmt. simpl.
    rewrite fn_lookup_insert. simpl. split; [done|].
    destruct (lua_rawget metatable "visible"); try done.
    do 2 f_equal. apply unref_item_fields.
  - intros Hmt f G' [= <-]. unfold luaA_widget_index. rewrite Hmt. simpl.
    rewrite fn_lookup_insert. simpl. split; [done|].
    destruct (lua_rawget metatable "visible"); try done.
    do 2 f_equal. apply unref_item_fields.
Qed.

(** X25: a hidden widget is out of reach: once [visible] has been set to
    false, no call of [widget_getbycoords] returns the widget and no render
    draws it, on any wibox. *)
Theorem hidden_widget_out_of_reach G' :
  luaA_widget_newindex type_newindex widget "visible" (LBoolean false) G = Some (0, G') →
  (∀ o widgets width0 height0 x0 y0,
     (widget_getbycoords (widget_objects (L G')) o widgets width0 height0 x0 y0).1
     ≠ Some widget)
  ∧ (∀ connection wibox c g wb,
       call_draw widget c g wb ∉ rnd_calls (widget_render (L G') connection wibox)).
Proof.
  intros [= <-].
  assert (isvisible (widget_objects
            (L (widget_invalidate_bywidget widget
                  (set_widget_objects
                     (<[widget := set_isvisible false (widget_objects (L G) widget)]>
                        (widget_objects (L G))) G))) widget) = false) as Hvis.
  { simpl. by rewrite fn_lookup_insert. }
  split.
  - intros o widgets width0 height0 x0 y0 (w & _ & Hw & Hhit)%getbycoords_foreach_Some.
    apply getbycoords_hit_matches in Hhit as [Hv _]. rewrite Hw in Hv. congruence.
  - intros connection wibox c g wb Hc.
    apply widget_render_calls in Hc as [Hc|[[_ Hc]|[_ [[_ [i Hc]]|[Hc|[Hc|Hc]]]]]];
      try done.
    + by apply widget_geometries_calls in Hc as [(? & ? & ? & ? & ?)|(? & ? & ?)].
    + by apply render_root_background_calls in Hc.
    + apply render_draw_calls in Hc as (node & _ & Hv & Heq). simplify_eq. congruence.
    + by apply render_rotate_calls in Hc as (? & ? & ? & ? & ? & ? & ? & ?).
Qed.
End generic_keys.

(** ** widget_render and the nodes of the previous pass *)

Lemma render_get_geometries_geometry wibox wibox' tbl :
  wibox_geometry wibox = wibox_geometry wibox' →
  ∀ i widgets, render_get_geometries wibox tbl i widgets
               = render_get_geometries wibox' tbl i widgets.
Proof.
  intros Hg. induction tbl as [|t tbl IH]; intros i widgets; simpl; [done|].
  destruct (widgets !! i); [|done]. by rewrite Hg, IH.
Qed.

Lemma widget_render_set_widgets L connection wibox ws :
  res_table (widget_geometries L wibox) ≠ None →
  widget_render L connection (set_widgets ws wibox) = widget_render L connection wibox.
Proof.
  unfold widget_render, widget_geometries.
  change (widget_layout (set_widgets ws wibox)) with (widget_layout wibox).
  destruct (lua_isfunction (widget_layout wibox)) as [f|]; simpl.
  - change (layout_geometry (set_widgets ws wibox)) with (layout_geometry wibox).
    destruct (luaA_dofunction L f _ _ _) as [tbl|]; [|done]. intros _.
    rewrite (render_get_geometries_geometry (set_widgets ws wibox) wibox) by done.
    by destruct (render_get_geometries _ _ _ _).
  - intros _.
    rewrite (render_get_geometries_geometry
               (set_widgets (luaA_table2widgets (luaA_object_push_item (widgets_table wibox)) [])
                  (set_widgets ws wibox))
               (set_widgets (luaA_table2widgets (luaA_object_push_item (widgets_table wibox)) [])
                  wibox)) by done.
    by destruct (render_get_geometries _ _ _ _).
Qed.

Lemma widget_geometries_set_widgets_table L wibox ws :
  res_table (widget_geometries L (set_widgets ws wibox))
  = res_table (widget_geometries L wibox).
Proof.
  unfold widget_geometries.
  change (widget_layout (set_widgets ws wibox)) with (widget_layout wibox).
  by destruct (lua_isfunction (widget_layout wibox)).
Qed.

(** X26: nodes of an earlier pass never leak into a render: unless
    [widget_geometries] fails, the result of [widget_render], its calls
    included, does not depend on the node collection the wibox had; so
    rendering again the wibox a completed render left gives the same
    result. *)
Theorem widget_render_ignores_nodes L connection wibox :
  (∀ ws, res_table (widget_geometries L wibox) ≠ None →
     widget_render L connection (set_widgets ws wibox) = widget_render L connection wibox)
  ∧ (rnd_status (widget_render L connection wibox) = render_done →
     widget_render L connection (rnd_wibox (widget_render L connection wibox))
     = widget_render L connection wibox).
Proof.
  split; [intros ws; apply widget_render_set_widgets|].
  intros Hdone.
  destruct (res_table (widget_geometries L wibox)) as [tbl|] eqn:Htbl.
  2: { unfold widget_render in Hdone. by rewrite Htbl in Hdone. }
  pose proof (widget_render_read L connection wibox tbl Htbl) as Hread.
  destruct (render_get_geometries _ _ _ _) as [nodes|]; [|destruct Hread; congruence].
  destruct Hread as [_ ->].
  assert (∀ ws, set_widgets ws (res_wibox (widget_geometries L wibox)) = set_widgets ws wibox)
    as Hset.
  { intros ws. unfold widget_geometries. by destruct (lua_isfunction _). }
  rewrite Hset. apply widget_render_set_widgets. by rewrite Htbl.
Qed.

(** * Instances *)

Lemma widget_getbycoords_first_match_witness :
  let widgets := [ {| widget := 2%positive;
                      geometry := {| x := 0; y := 0; width := 50; height := 20 |} |};
                   {| widget := 1%positive;
                      geometry := {| x := 0; y := 0; width := 100; height := 20 |} |} ] in
  int16_range 3 ∧ int16_range 5
  ∧ (widget_getbycoords sample_mem North widgets 100 20 3 5).2 = (15, 3)
  ∧ first_match sample_mem (15, 3) widgets (Some 1%positive).
Proof.
  intros widgets.
  assert (int16_range 3) as H3 by (unfold int16_range; lia).
  assert (int16_range 5) as H5 by (unfold int16_range; lia).
  split_and!; [done|done|reflexivity|].
  exact (proj1 (proj2 (widget_getbycoords_first_match sample_mem North widgets 100 20 3 5 H3 H5))).
Defined.

Lemma widget_geometries_layout_geometry_witness :
  let wibox := sample_wibox North 65535 (Some sample_table_layout) in
  widgets_table wibox = Some sample_table_layout
  ∧ lua_getfield sample_table_layout "layout" = LFunction 5
  ∧ res_calls (widget_geometries sample_L wibox)
    = [call_layout 5 {| x := 0; y := 0; width := 20; height := 100 |} sample_table_layout 0].
Proof.
  intros wibox.
  assert (widgets_table wibox = Some sample_table_layout) as Htbl by reflexivity.
  assert (lua_getfield sample_table_layout "layout" = LFunction 5) as Hlayout by reflexivity.
  split_and!; [done|done|].
  exact (proj1 (widget_geometries_layout_geometry sample_L wibox sample_table_layout 5
                  Htbl Hlayout)).
Defined.

Lemma widget_geometries_default_witness :
  let wibox := sample_wibox South 65535 (Some sample_table) in
  lua_isfunction (widget_layout wibox) = None
  ∧ widgets (res_wibox (widget_geometries sample_L wibox))
    = [ {| widget := 1%positive; geometry := zero_area |};
        {| widget := 2%positive; geometry := zero_area |} ].
Proof.
  intros wibox.
  assert (lua_isfunction (widget_layout wibox) = None) as Hdef by reflexivity.
  split; [done|].
  exact (proj1 (proj1 (widget_geometries_default sample_L wibox) Hdef)).
Defined.

Lemma widget_render_aborts_witness :
  let wibox := sample_wibox North 100 (Some sample_table_layout) in
  res_table (widget_geometries failing_L wibox) = None
  ∧ rnd_status (widget_render failing_L sample_connection wibox) = render_aborted
  ∧ rnd_wibox (widget_render failing_L sample_connection wibox) = wibox.
Proof.
  intros wibox.
  assert (res_table (widget_geometries failing_L wibox) = None) as Hfail by reflexivity.
  pose proof (widget_render_aborts failing_L sample_connection wibox Hfail) as H.
  split_and!; [done|apply H|apply H].
Defined.

Lemma widget_render_draws_visible_witness :
  let wibox := sample_wibox South 100 (Some sample_table_layout) in
  let r := widget_render sample_L sample_connection wibox in
  rnd_status r = render_done
  ∧ widget <$> widgets (rnd_wibox r) = [1; 2]%positive
  ∧ filter (λ c, is_draw c) (rnd_calls r)
    = [call_draw 1%positive (ctx wibox) {| x := 0; y := 0; width := 30; height := 100 |}
         (rnd_wibox r)]
  ∧ ∀ c g wb, call_draw 2%positive c g wb ∉ rnd_calls r.
Proof.
  intros wibox r.
  assert (rnd_status r = render_done) as Hdone by reflexivity.
  destruct (widget_render_draws_visible sample_L sample_connection wibox Hdone)
    as (Hwidgets & Hdraws & _ & _ & Hhidden).
  fold r in Hwidgets, Hdraws, Hhidden.
  split_and!.
  - done.
  - rewrite Hwidgets. reflexivity.
  - rewrite Hdraws. reflexivity.
  - intros c g wb. apply Hhidden. reflexivity.
Defined.

Lemma widget_render_opaque_witness :
  let wibox := sample_wibox North 65535 (Some sample_table) in
  alpha (ctx_bg (ctx wibox)) = 65535
  ∧ call_get_property 1 ∉ rnd_calls (widget_render sample_L sample_connection wibox).
Proof.
  intros wibox.
  assert (alpha (ctx_bg (ctx wibox)) = 65535) as Ha by reflexivity.
  split; [done|].
  exact (widget_render_opaque sample_L sample_connection wibox Ha (call_get_property 1)).
Defined.

Lemma widget_invalidate_bywidget_dirty_witness :
  managed sample_globalconf 3%positive
  ∧ contains_widget 1%positive (wibox_objects sample_globalconf 3%positive)
  ∧ need_update (wibox_objects (widget_invalidate_bywidget 1%positive sample_globalconf)
                   3%positive) = true.
Proof.
  assert (managed sample_globalconf 3%positive) as Hm.
  { right. exists {| titlebar := Some 3%positive |}. split; [left|reflexivity]. }
  assert (contains_widget 1%positive (wibox_objects sample_globalconf 3%positive)) as Hc.
  { exists {| widget := 1%positive; geometry := zero_area |}. split; [left|reflexivity]. }
  split_and!; [done|done|].
  exact (proj1 (widget_invalidate_bywidget_dirty 1%positive sample_globalconf 3%positive)
           Hm Hc).
Defined.

Lemma luaA_widget_newindex_generic_witness :
  managed sample_globalconf 1%positive
  ∧ contains_widget 2%positive (wibox_objects sample_globalconf 1%positive)
  ∧ ∃ G', luaA_widget_newindex sample_type_newindex 2%positive "visible" (LBoolean true)
            sample_globalconf = Some (0, G')
      ∧ need_update (wibox_objects G' 1%positive) = true.
Proof.
  assert (managed sample_globalconf 1%positive) as Hm by (left; left).
  assert (contains_widget 2%positive (wibox_objects sample_globalconf 1%positive)) as Hc.
  { exists {| widget := 2%positive; geometry := zero_area |}.
    split; [right; left|reflexivity]. }
  split_and!; [done|done|].
  destruct (proj1 (luaA_widget_newindex_generic sample_type_newindex 2%positive
                     sample_globalconf) true) as (G' & Hrun & _ & _ & Hdirty).
  exists G'. split; [exact Hrun|exact (Hdirty 1%positive Hm Hc)].
Defined.

Lemma luaA_widget_new_types_witness :
  ("graph", widget_graph) ∈ widget_type_names
  ∧ ∃ w, (luaA_widget_new sample_construct (Some "graph") sample_globalconf).1 = Some w
      ∧ isvisible (widget_objects
                     (L (luaA_widget_new sample_construct (Some "graph") sample_globalconf).2)
                     w) = true.
Proof.
  assert (("graph", widget_graph) ∈ widget_type_names) as Hin
    by (unfold widget_type_names; right; right; left).
  split; [done|].
  destruct (proj1 (luaA_widget_new_types sample_construct (Some "graph") sample_globalconf)
              "graph" widget_graph Hin eq_refl) as (w & Hw & _ & Hvis & _).
  exists w. by split.
Defined.

(** * Instances of the further properties *)

Lemma luaA_table2widgets_flattens_witness :
  luaA_table2widgets
    (LTable ([(KNumber 1, LWidget 1)] ++ (KNumber 2, LString "gap") :: [(KNumber 3, LWidget 2)])) []
  = luaA_table2widgets (LTable ([(KNumber 1, LWidget 1)] ++ [(KNumber 3, LWidget 2)])) [].
Proof.
  apply (proj2 (luaA_table2widgets_flattens [(KNumber 1, LWidget 1)] (KNumber 2) []
                  [(KNumber 3, LWidget 2)] [])); done.
Defined.

Lemma luaA_table2widgets_leaves_witness :
  widget_leaf 2%positive sample_table
  ∧ ∃ wnode, wnode ∈ luaA_table2widgets sample_table [] ∧ widget wnode = 2%positive.
Proof.
  assert (widget_leaf 2%positive sample_table) as Hleaf.
  { eapply (widget_leaf_entry _ (KNumber 3)); [right; right; left|].
    eapply (widget_leaf_entry _ (KNumber 1)); [left|constructor]. }
  split; [done|].
  exact (proj2 (proj1 (luaA_table2widgets_leaves sample_table 2%positive)) Hleaf).
Defined.

Lemma widget_geometries_frame_witness :
  let wibox := sample_wibox_with [2]%positive true in
  let wibox' := {| wibox_geometry := wibox_geometry wibox; orientation := North;
                   ctx := ctx wibox; pixmap := pixmap wibox; gc := gc wibox;
                   widgets := widgets wibox; widgets_table := Some sample_table_layout;
                   need_update := true; bg_image := None; screen := 0 |} in
  lua_isfunction (widget_layout wibox') = Some 5%positive
  ∧ res_wibox (widget_geometries sample_L wibox') = wibox'.
Proof.
  intros wibox wibox'.
  assert (lua_isfunction (widget_layout wibox') = Some 5%positive) as Hf by reflexivity.
  split; [done|].
  exact (proj2 (widget_geometries_frame sample_L wibox') 5%positive Hf).
Defined.

Lemma widget_geometries_no_widget_witness :
  let wibox := sample_wibox South 100 (Some (LTable [(KNumber 1, LString "gap")])) in
  table_or_none wibox
  ∧ lua_isfunction (widget_layout wibox) = None
  ∧ res_table (widget_geometries sample_L wibox) = Some [].
Proof.
  intros wibox.
  assert (table_or_none wibox) as Htable by exact I.
  assert (lua_isfunction (widget_layout wibox) = None) as Hdef by reflexivity.
  assert (∀ tbl w, widgets_table wibox = Some tbl → ¬ widget_leaf w tbl) as Hno.
  { intros tbl w [= <-] Hleaf. inversion Hleaf as [|k v ? Hin Hv]; subst.
    apply list_elem_of_singleton in Hin. simplify_eq. inversion Hv. }
  split_and!; [done|done|].
  by rewrite (widget_geometries_no_widget sample_L wibox Htable Hdef Hno).
Defined.

Lemma widget_geometries_default_orientation_witness :
  let wibox := sample_wibox East 100 (Some sample_table) in
  lua_isfunction (widget_layout wibox) = None
  ∧ res_table (widget_geometries sample_L (set_orientation South wibox))
    = res_table (widget_geometries sample_L wibox).
Proof.
  intros wibox.
  assert (lua_isfunction (widget_layout wibox) = None) as Hdef by reflexivity.
  split; [done|].
  exact (proj1 (widget_geometries_default_orientation sample_L wibox South Hdef)).
Defined.


Lemma widget_render_default_witness :
  let wibox := sample_wibox South 100 (Some sample_table_one) in
  table_or_none wibox
  ∧ lua_isfunction (widget_layout wibox) = None
  ∧ rnd_status (widget_render sample_L sample_connection wibox) = render_done
  ∧ widgets (rnd_wibox (widget_render sample_L sample_connection wibox))
    = [ {| widget := 1%positive;
           geometry := {| x := 0; y := 0; width := 40; height := 20 |} |} ].
Proof.
  intros wibox.
  assert (table_or_none wibox) as Htable by exact I.
  assert (lua_isfunction (widget_layout wibox) = None) as Hdef by reflexivity.
  destruct (widget_render_default sample_L sample_connection wibox Htable Hdef)
    as [Hdone Hnodes].
  split_and!; [done|done|exact Hdone|].
  rewrite Hnodes. reflexivity.
Defined.

Lemma widget_render_reads_back_witness :
  let wibox := sample_wibox South 100 (Some sample_table_layout) in
  let r := widget_render sample_L sample_connection wibox in
  rnd_status r = render_done
  ∧ int16_range (x (wibox_geometry wibox)) ∧ int16_range (y (wibox_geometry wibox))
  ∧ widget <$> widgets (rnd_wibox r) = widget <$> flattened wibox
  ∧ ∀ node, widgets (rnd_wibox r) !! 1%nat = Some node →
      geometry node = {| x := 30; y := 10; width := 30; height := 1 |}.
Proof.
  intros wibox r.
  assert (rnd_status r = render_done) as Hdone by reflexivity.
  assert (int16_range (x (wibox_geometry wibox))) as Hx by (vm_compute; split; discriminate).
  assert (int16_range (y (wibox_geometry wibox))) as Hy by (vm_compute; split; discriminate).
  assert (Forall fits_area
            [ {| lua_x := Some 0; lua_y := Some 0;
                 lua_width := Some 30; lua_height := Some 100 |};
              {| lua_x := Some 30; lua_y := None;
                 lua_width := Some 30; lua_height := None |} ]) as Hfits.
  { apply Forall_cons; [|apply Forall_cons; [|apply Forall_nil]];
      (unfold fits_area; simpl; split_and!; intros z Hz; simplify_eq;
       unfold int16_range, uint16_range; lia). }
  destruct (widget_render_reads_back sample_L sample_connection wibox _ eq_refl
              Hfits Hx Hy Hdone) as [Hwidgets Hgeometry].
  split_and!; [done|done|done|exact Hwidgets|].
  intros node Hnode. exact (Hgeometry 1%nat node Hnode).
Defined.

Lemma widget_render_rotation_witness :
  let wibox := sample_wibox East 100 (Some sample_table) in
  orientation wibox = East
  ∧ ∀ ctx src dst sw sh dw dh angle tx ty,
      call_draw_rotate ctx src dst sw sh dw dh angle tx ty
      ∉ rnd_calls (widget_render sample_L sample_connection wibox).
Proof.
  intros wibox.
  assert (orientation wibox = East) as HE by reflexivity.
  split; [done|].
  exact (proj1 (widget_render_rotation sample_L sample_connection wibox) HE).
Defined.

Lemma widget_render_no_root_pixmap_witness :
  let wibox := sample_wibox East 100 (Some sample_table) in
  xcb_get_property_reply silent_connection
    (root (xutil_screen_get silent_connection (ctx_phys_screen (ctx wibox)))) = None
  ∧ ∀ src dst gc sx sy dx dy w h,
      call_copy_area src dst gc sx sy dx dy w h
      ∉ rnd_calls (widget_render sample_L silent_connection wibox).
Proof.
  intros wibox.
  assert (xcb_get_property_reply silent_connection
            (root (xutil_screen_get silent_connection (ctx_phys_screen (ctx wibox)))) = None)
    as Hnone by reflexivity.
  split; [done|]. intros src dst gc0 sx sy dx dy w h.
  exact (proj2 (widget_render_no_root_pixmap sample_L silent_connection wibox) Hnone
           (call_copy_area src dst gc0 sx sy dx dy w h)).
Defined.

Lemma widget_render_fill_first_witness :
  let wibox := sample_wibox North 100 (Some sample_table) in
  let r := widget_render sample_L sample_connection wibox in
  rnd_status r = render_done
  ∧ ∃ before, rnd_calls r
      = before
        ++ call_draw_rectangle (ctx wibox)
             {| x := 0; y := 0; width := 100; height := 20 |} true (ctx_bg (ctx wibox))
           :: render_draw sample_L (rnd_wibox r) ++ render_rotate (rnd_wibox r).
Proof.
  intros wibox r.
  assert (rnd_status r = render_done) as Hdone by reflexivity.
  split; [done|].
  destruct (widget_render_fill_first sample_L sample_connection wibox Hdone)
    as (before & Hcalls & _).
  by exists before.
Defined.

Lemma widget_getbycoords_positive_extent_witness :
  let widgets := luaA_table2widgets sample_table [] in
  (∀ w, w ∈ widgets → geometry w = zero_area)
  ∧ (widget_getbycoords sample_mem East widgets 100 20 0 0).1 = None.
Proof.
  intros widgets.
  assert (∀ w, w ∈ widgets → geometry w = zero_area) as Hzero.
  { intros w [->|[->|[]%elem_of_nil]%elem_of_cons]%elem_of_cons; reflexivity. }
  split; [done|].
  exact (proj2 (widget_getbycoords_positive_extent sample_mem East widgets 100 20 0 0) Hzero).
Defined.

Lemma widget_invalidate_bywidget_keeps_witness :
  ¬ managed sample_globalconf 4%positive
  ∧ wibox_objects (widget_invalidate_bywidget 1%positive sample_globalconf) 4%positive
    = wibox_objects sample_globalconf 4%positive.
Proof.
  assert (¬ managed sample_globalconf 4%positive) as Hm.
  { intros [Hin|(c & Hin & Htb)].
    - by repeat (apply elem_of_cons in Hin as [?|Hin]; [done|]); apply elem_of_nil in Hin.
    - repeat (apply elem_of_cons in Hin as [->|Hin]; [done|]). by apply elem_of_nil in Hin. }
  split; [done|].
  exact (proj1 (proj2 (widget_invalidate_bywidget_keeps 1%positive sample_globalconf
                         4%positive)) Hm).
Defined.

Lemma widget_invalidate_bytype_dirty_witness :
(3%positive ∉ wiboxes sample_globalconf)
  ∧ wibox_objects (widget_invalidate_bytype (Some widget_textbox) sample_globalconf) 3%positive
    = wibox_objects sample_globalconf 3%positive.
Proof.
  assert (3%positive ∉ wiboxes sample_globalconf) as Hnin.
  { intros Hin. by repeat (apply elem_of_cons in Hin as [?|Hin]; [done|]);
      apply elem_of_nil in Hin. }
  split; [done|].
  exact (proj1 (proj2 (proj2 (widget_invalidate_bytype_dirty (Some widget_textbox)
                                sample_globalconf 3%positive))) Hnin).
Defined.

Lemma widget_invalidate_bytype_covers_witness :
  1%positive ∈ wiboxes sample_globalconf
  ∧ need_update (wibox_objects (widget_invalidate_bywidget 2%positive sample_globalconf)
                   1%positive) = true
  ∧ need_update
      (wibox_objects
         (widget_invalidate_bytype (type (widget_objects (L sample_globalconf) 2%positive))
            sample_globalconf) 1%positive) = true.
Proof.
  assert (1%positive ∈ wiboxes sample_globalconf) as Hin by left.
  assert (need_update (wibox_objects (widget_invalidate_bywidget 2%positive sample_globalconf)
                         1%positive) = true) as Hd by reflexivity.
  split_and!; [done|done|].
  exact (widget_invalidate_bytype_covers 2%positive sample_globalconf 1%positive Hin Hd).
Defined.

Lemma luaA_widget_new_frame_witness :
  (luaA_widget_new sample_construct (Some "imagebox") sample_globalconf).1 = Some 3%positive
  ∧ wibox_objects (luaA_widget_new sample_construct (Some "imagebox") sample_globalconf).2
    = wibox_objects sample_globalconf.
Proof.
  assert ((luaA_widget_new sample_construct (Some "imagebox") sample_globalconf).1
          = Some 3%positive) as Hnew by reflexivity.
  split; [done|].
  exact (proj1 (proj2 (luaA_widget_new_frame sample_construct (Some "imagebox")
                         sample_globalconf 3%positive Hnew))).
Defined.

Lemma luaA_widget_newindex_type_errors_witness :
  (∀ b, LString "yes" ≠ LBoolean b)
  ∧ luaA_widget_newindex sample_type_newindex 1%positive "visible" (LString "yes")
      sample_globalconf = None.
Proof.
  assert (∀ b, LString "yes" ≠ LBoolean b) as Hno by done.
  split; [done|].
  exact (proj2 (proj1 (luaA_widget_newindex_type_errors sample_type_newindex 1%positive
                         sample_globalconf (LString "yes"))) Hno).
Defined.

Lemma luaA_widget_newindex_generic_frame_witness :
  ∃ G', luaA_widget_newindex sample_type_newindex 1%positive "mouse_leave" (LFunction 7)
          sample_globalconf = Some (0, G')
    ∧ type (widget_objects (L G') 1%positive)
      = type (widget_objects (L sample_globalconf) 1%positive).
Proof.
  eexists. split; [reflexivity|].
  exact (proj1 (proj2 (luaA_widget_newindex_generic_frame sample_type_newindex 1%positive
                         sample_globalconf "mouse_leave" (LFunction 7) 0 _
                         (or_intror (or_intror eq_refl)) eq_refl))).
Defined.

Lemma luaA_widget_newindex_same_hook_witness :
  (0 < env (widget_objects (L hooked_globalconf) 1%positive) 6%positive)%nat
  ∧ mouse_enter (widget_objects (L hooked_globalconf) 1%positive) = Some 6%positive
  ∧ ∃ G', luaA_widget_newindex sample_type_newindex 1%positive "mouse_enter" (LFunction 6)
            hooked_globalconf = Some (0, G')
      ∧ ∀ g, env (widget_objects (L G') 1%positive) g
             = env (widget_objects (L hooked_globalconf) 1%positive) g.
Proof.
  assert (0 < env (widget_objects (L hooked_globalconf) 1%positive) 6%positive)%nat as Hpos
    by (vm_compute; lia).
  assert (mouse_enter (widget_objects (L hooked_globalconf) 1%positive) = Some 6%positive)
    as Hold by reflexivity.
  split_and!; [done|done|].
  destruct (proj1 (luaA_widget_newindex_same_hook sample_type_newindex 1%positive
                     hooked_globalconf 6%positive Hpos) Hold) as (G' & Hrun & _ & Henv).
  by exists G'.
Defined.

Lemma widget_other_keys_witness :
  newindex (widget_objects (L sample_globalconf) 1%positive) = false
  ∧ luaA_widget_newindex sample_type_newindex 1%positive "text" (LString "hello")
      sample_globalconf = Some (0, sample_globalconf).
Proof.
  assert (newindex (widget_objects (L sample_globalconf) 1%positive) = false) as Hcap
    by reflexivity.
  assert ("text" ≠ "visible") as H1 by done.
  assert ("text" ≠ "mouse_enter") as H2 by done.
  assert ("text" ≠ "mouse_leave") as H3 by done.
  split; [done|].
  exact (proj1 (widget_other_keys sample_metatable sample_type_index sample_type_newindex
                  1%positive sample_globalconf "text" (LString "hello") H1 H2 H3) Hcap).
Defined.

Lemma widget_index_after_newindex_witness :
  lua_rawget sample_metatable "visible" = LNil
  ∧ ∃ G', luaA_widget_newindex sample_type_newindex 2%positive "visible" (LBoolean true)
            sample_globalconf = Some (0, G')
      ∧ luaA_widget_index sample_metatable sample_type_index 2%positive "visible" G'
        = [LBoolean true].
Proof.
  assert (lua_rawget sample_metatable "visible" = LNil) as Hmt by reflexivity.
  split; [done|]. eexists. split; [reflexivity|].
  exact (proj1 (widget_index_after_newindex sample_metatable sample_type_index
                  sample_type_newindex 2%positive sample_globalconf) Hmt true _ eq_refl).
Defined.

Lemma hidden_widget_out_of_reach_witness :
  ∃ G', luaA_widget_newindex sample_type_newindex 1%positive "visible" (LBoolean false)
          sample_globalconf = Some (0, G')
    ∧ ∀ c g wb,
        call_draw 1%positive c g wb
        ∉ rnd_calls (widget_render (L G') sample_connection
                       (sample_wibox East 100 (Some sample_table))).
Proof.
  eexists. split; [reflexivity|]. intros c g wb.
  exact (proj2 (hidden_widget_out_of_reach sample_type_newindex 1%positive
                  sample_globalconf _ eq_refl) sample_connection
           (sample_wibox East 100 (Some sample_table)) c g wb).
Defined.

Lemma widget_render_ignores_nodes_witness :
  let wibox := sample_wibox South 100 (Some sample_table_layout) in
  rnd_status (widget_render sample_L sample_connection wibox) = render_done
  ∧ widget_render sample_L sample_connection
      (rnd_wibox (widget_render sample_L sample_connection wibox))
    = widget_render sample_L sample_connection wibox.
Proof.
  intros wibox.
  assert (rnd_status (widget_render sample_L sample_connection wibox) = render_done)
    as Hdone by reflexivity.
  split; [done|].
  exact (proj2 (widget_render_ignores_nodes sample_L sample_connection wibox) Hdone).
Defined.
